(** * Node core of the SDK: a shallow embedding and its checked properties

    The development follows the layout of the sources:
    - [RegisterMultisignature] embeds
      [elements/lisk-transactions/src/register_multisignature_account.ts];
    - [Node] embeds the parts of [framework/src/node/node.ts] the properties
      talk about (bootstrap, the forging task, the chain event handlers and
      the [getValidators] action);
    - [Transport] models the transport handlers exercised by
      [framework/test/mocha/unit/application/node/transport/transport.js].

    JavaScript computations that may throw are functions into [completion];
    code that also mutates the node is a function from the state to a new
    state and a [completion]. *)

From Stdlib Require Import ZArith QArith Qround List String Ascii Lia Bool.
From stdpp Require Import gmap strings list.

Local Open Scope string_scope.
Local Open Scope list_scope.
Local Open Scope Z_scope.

(** ** Completions: normal return or a thrown value *)

Inductive completion (E A : Type) : Type :=
| Return (a : A)
| Throw (e : E).
Arguments Return {E A} a.
Arguments Throw {E A} e.

(** The error monad: a throw skips the continuation.  The instances give
    stdpp's [x ← c; k] and [c ;; k] notations. *)
#[export] Instance completion_ret {E} : MRet (completion E) :=
  fun _ a => Return a.
#[export] Instance completion_bind {E} : MBind (completion E) :=
  fun _ _ k c =>
    match c with
    | Return a => k a
    | Throw e => Throw e
    end.

(** [if (cond) throw e;] *)
Definition throwIf {E} (cond : bool) (e : E) : completion E unit :=
  if cond then Throw e else Return tt.

(** ** JavaScript numbers, as far as [numberOfSignatures] needs them

    A JS [number] is a finite value, [NaN] or an infinity.  Finite values are
    kept as rationals, which is enough to tell integers from non-integers.
    Every comparison with [NaN] is [false]. *)

Inductive number : Type :=
| Finite (q : Q)
| NaN
| PosInfinity
| NegInfinity.

Definition Qltb (a b : Q) : bool := negb (Qle_bool b a).

(** [a < b] on JS numbers. *)
Definition num_lt (a b : number) : bool :=
  match a, b with
  | Finite x, Finite y => Qltb x y
  | Finite _, PosInfinity => true
  | NegInfinity, Finite _ => true
  | NegInfinity, PosInfinity => true
  | _, _ => false
  end.

(** [a > b] on JS numbers. *)
Definition num_gt (a b : number) : bool := num_lt b a.

Definition ofZ (z : Z) : number := Finite (inject_Z z).

(** [array.length] as a JS number. *)
Definition lengthN {A} (l : list A) : number := ofZ (Z.of_nat (length l)).

(** The mathematical reading of "the number is the integer [z]". *)
Definition isInteger (n : number) (z : Z) : Prop :=
  match n with
  | Finite q => Qeq q (inject_Z z)
  | _ => False
  end.

(** * [register_multisignature_account.ts] *)

Module RegisterMultisignature.

(** The errors [validateInputs] throws, one constructor per [throw]. *)
Inductive Error : Type :=
| ErrNonce          (* 'Nonce must be a valid number in string format.' *)
| ErrFee            (* 'Fee must be a valid number in string format.' *)
| ErrNumberOfSignatures
    (* 'Please provide a valid numberOfSignatures value. ...' *)
| ErrMandatoryExceeds
    (* 'The numberOfSignatures should be more than or equal to the number
        of mandatory passphrases.' *)
| ErrSignaturesExceedKeys
    (* '... numberOfSignatures (n) is bigger than the count of optional (o)
        and mandatory (m) keys.' *)
| ErrNumberOfKeys
    (* 'Please provide a valid number of mandatory and optional keys. ...' *)
| ErrRepeatedBetween (keys : list string)
    (* 'There are repeated values in optional and mandatory keys: ...' *)
| ErrRepeatedMandatory (* 'There are repeated mandatory public keys' *)
| ErrRepeatedOptional  (* 'There are repeated optional public keys' *)
| ErrExternal (msg : string). (* thrown by a collaborator *)

Record RegisterMultisignatureInputs : Type := {
  senderPassphrase : option string;        (* [None] is [undefined] *)
  passphrases : option (list string);
  mandatoryKeys : list string;
  optionalKeys : list string;
  numberOfSignatures : number;
  networkIdentifier : string;
  nonce : string;
  fee : string
}.

Record ValidateMultisignatureRegistrationInput : Type := {
  mandatoryPublicKeys : list string;
  optionalPublicKeys : list string;
  v_numberOfSignatures : number;
  v_networkIdentifier : string;
  v_fee : string;
  v_nonce : string
}.

Record MultisignatureAsset : Type := {
  a_mandatoryKeys : list string;
  a_optionalKeys : list string;
  a_numberOfSignatures : number
}.

(** Modelled from the spec: [isValidInteger] of the validator package is not
    among the sources.  It accepts the numbers equal to their own floor;
    [Math.floor] maps an infinity to itself and [NaN] is never equal to
    anything. *)
Definition isValidInteger (n : number) : bool :=
  match n with
  | Finite q => Qeq_bool (inject_Z (Qfloor q)) q
  | NaN => false
  | PosInfinity | NegInfinity => true
  end.

(** Modelled from the spec: [findRepeatedKeys] of [./utils] is not among the
    sources.  It returns the keys of its first argument that also occur in
    the second. *)
Definition findRepeatedKeys (keysA keysB : list string) : list string :=
  List.filter (fun k => bool_decide (k ∈ keysB)) keysA.

(** [Array.from(new Set(keys))]: first occurrences, in order. *)
Fixpoint uniqueKeys (seen keys : list string) : list string :=
  match keys with
  | [] => []
  | k :: rest =>
      if bool_decide (k ∈ seen) then uniqueKeys seen rest
      else k :: uniqueKeys (k :: seen) rest
  end.

(** JS truthiness of the two optional inputs: [undefined] and the empty
    string are falsy, every array is truthy. *)
Definition truthyString (s : option string) : bool :=
  match s with
  | Some s => negb (bool_decide (s = ""))
  | None => false
  end.

Definition truthyArray {A} (l : option (list A)) : bool :=
  match l with Some _ => true | None => false end.

Section Register.
(** Constants of [./constants] and collaborators from other packages. *)
Variables MAX_NUMBER_OF_KEYS MAX_NUMBER_OF_SIGNATURES
          MIN_NUMBER_OF_KEYS MIN_NUMBER_OF_SIGNATURES : Z.
Variables isValidNonce isValidFee : string -> bool.
Variable validateNetworkIdentifier : string -> completion Error unit.

(** What [createBaseTransaction] contributes to the transaction object. *)
Variable BaseFields : Type.
Variable createBaseTransaction : RegisterMultisignatureInputs -> BaseFields.
(** [signAll]: the signatures it leaves on the transaction, or a throw. *)
Variable signAll :
  string -> string -> list string -> MultisignatureAsset ->
  completion Error (list string).

Definition validateInputs (i : ValidateMultisignatureRegistrationInput)
  : completion Error unit :=
  let m := mandatoryPublicKeys i in
  let o := optionalPublicKeys i in
  let n := v_numberOfSignatures i in
  throwIf (negb (isValidNonce (v_nonce i))) ErrNonce ;;
  throwIf (negb (isValidFee (v_fee i))) ErrFee ;;
  throwIf (negb (isValidInteger n)
           || num_lt n (ofZ MIN_NUMBER_OF_SIGNATURES)
           || num_gt n (ofZ MAX_NUMBER_OF_SIGNATURES))
          ErrNumberOfSignatures ;;
  throwIf (num_gt (lengthN m) n) ErrMandatoryExceeds ;;
  throwIf (num_gt n (ofZ (Z.of_nat (length m) + Z.of_nat (length o))))
          ErrSignaturesExceedKeys ;;
  throwIf ((Z.of_nat (length m) + Z.of_nat (length o) >? MAX_NUMBER_OF_KEYS)
           || (Z.of_nat (length m) + Z.of_nat (length o) <? MIN_NUMBER_OF_KEYS))
          ErrNumberOfKeys ;;
  (* Check key duplication between sets *)
  let repatedKeys := findRepeatedKeys o m in
  throwIf (0 <? Z.of_nat (length repatedKeys))
          (ErrRepeatedBetween repatedKeys) ;;
  (* Check key repetitions inside each set *)
  let uniqueMandatoryPublicKeys := uniqueKeys [] m in
  throwIf (Z.of_nat (length uniqueMandatoryPublicKeys) <? Z.of_nat (length m))
          ErrRepeatedMandatory ;;
  let uniqueOptionalPublicKeys := uniqueKeys [] o in
  throwIf (Z.of_nat (length uniqueOptionalPublicKeys) <? Z.of_nat (length o))
          ErrRepeatedOptional ;;
  validateNetworkIdentifier (v_networkIdentifier i).

(** Modelled from the spec: the class [MultisignatureTransaction] is not
    among the sources.  This is the JSON of the transaction object:
    constructing the class from the raw object and calling [toJSON] is taken
    to hand the fields back, with an empty [signatures] list until [signAll]
    fills it. *)
Record TransactionJSON : Type := {
  base : BaseFields;
  type : Z;
  t_networkIdentifier : string;
  asset : MultisignatureAsset;
  signatures : list string
}.

Definition registerMultisignature (inputs : RegisterMultisignatureInputs)
  : completion Error TransactionJSON :=
  validateInputs
    {| mandatoryPublicKeys := mandatoryKeys inputs;
       optionalPublicKeys := optionalKeys inputs;
       v_numberOfSignatures := numberOfSignatures inputs;
       v_networkIdentifier := networkIdentifier inputs;
       v_fee := fee inputs;
       v_nonce := nonce inputs |} ;;
  let a := {| a_mandatoryKeys := mandatoryKeys inputs;
              a_optionalKeys := optionalKeys inputs;
              a_numberOfSignatures := numberOfSignatures inputs |} in
  let transaction :=
    {| base := createBaseTransaction inputs;
       type := 12;
       t_networkIdentifier := networkIdentifier inputs;
       asset := a;
       signatures := [] |} in
  if negb (truthyArray (passphrases inputs))
     || negb (truthyString (senderPassphrase inputs))
  then Return transaction
  else
    sigs ← signAll (networkIdentifier inputs)
                   (default "" (senderPassphrase inputs))
                   (default [] (passphrases inputs)) a ;
    Return {| base := base transaction;
              type := type transaction;
              t_networkIdentifier := t_networkIdentifier transaction;
              asset := asset transaction;
              signatures := sigs |}.

End Register.

(** The conditions on the keys and on [numberOfSignatures], in the words of
    the specification: an integer within the allowed range, at least the
    number of mandatory keys and at most the number of all keys; the number
    of keys within its range; no key in both lists; no key twice in a list. *)
Definition keysAndSignaturesValid (MAX_KEYS MAX_SIGNATURES MIN_KEYS
    MIN_SIGNATURES : Z) (inputs : RegisterMultisignatureInputs) : Prop :=
  let m := mandatoryKeys inputs in
  let o := optionalKeys inputs in
  (∃ z : Z, isInteger (numberOfSignatures inputs) z
            ∧ MIN_SIGNATURES ≤ z ≤ MAX_SIGNATURES
            ∧ Z.of_nat (length m) ≤ z ≤ Z.of_nat (length m) + Z.of_nat (length o))
  ∧ MIN_KEYS ≤ Z.of_nat (length m) + Z.of_nat (length o) ≤ MAX_KEYS
  ∧ (∀ k, k ∈ m → k ∉ o)
  ∧ NoDup m
  ∧ NoDup o.

(** The asset built from the inputs. *)
Definition assetOf (inputs : RegisterMultisignatureInputs)
  : MultisignatureAsset :=
  {| a_mandatoryKeys := mandatoryKeys inputs;
     a_optionalKeys := optionalKeys inputs;
     a_numberOfSignatures := numberOfSignatures inputs |}.

(** Modelled from the spec: [isValidNonce] and [isValidFee] of the validator
    package are not among the sources.  The messages of [validateInputs]
    call for "a valid number in string format"; this stand-in accepts the
    non-empty strings of decimal digits. *)
Definition isNumberString (s : string) : bool :=
  negb (bool_decide (s = ""))
  && forallb (fun c => (48 <=? nat_of_ascii c)%nat && (nat_of_ascii c <=? 57)%nat)
             (list_ascii_of_string s).

(** Sample inputs: two mandatory keys, one optional key, two signatures. *)
Definition sampleInputs (nonce : string) : RegisterMultisignatureInputs :=
  {| senderPassphrase := None;
     passphrases := None;
     mandatoryKeys := ["k1"; "k2"];
     optionalKeys := ["k3"];
     numberOfSignatures := ofZ 2;
     networkIdentifier := "net";
     nonce := nonce;
     fee := "10" |}.

End RegisterMultisignature.

(** * Data shared by the node and its transport *)

(** Values thrown inside the node.  The first three are the errors
    [Node.bootstrap] creates itself; [JsError] is [new Error(message)] from
    anywhere else, [ValidationErrors] the array of validator errors the
    transport rethrows. *)
Inductive Error : Type :=
| MissingGenesisBlock                 (* Error('Missing genesis block') *)
| CustomModuleExists (id : Z)
    (* `Custom module with type ${id} already exists` *)
| WaitThresholdTooLarge (waitThreshold blockTime : Z)
    (* `forging.waitThreshold=... is greater or equal to
        genesisConfig.blockTime=...` *)
| TypeError (message : string)
| JsError (message : string)
| ValidationErrors (messages : list string).

Record Transaction : Type := {
  tx_id : string;
  senderPublicKey : string;
  tx_nonce : Z;
  tx_fee : Z
}.

Record BlockHeader : Type := {
  b_id : string;
  b_version : Z;
  height : Z;
  maxHeightPrevoted : Z               (* header.asset.maxHeightPrevoted *)
}.

Record Block : Type := {
  header : BlockHeader;
  payload : list Transaction
}.

Record Account : Type := {
  address : string;
  acc_nonce : Z
}.

Record Validator : Type := {
  v_address : string;
  isConsensusParticipant : bool;
  minActiveHeight : Z
}.

(** [chain.slots]: an object with three methods. *)
Record Slots : Type := {
  getSlotNumber : Z -> Z;
  getSlotTime : Z -> Z;
  blockTime : Z
}.

(** The chain as the node sees it.  [blocks] is the block store read
    through [dataAccess]. *)
Record Chain : Type := {
  lastBlock : Block;
  blocks : list Block;
  validators : list Validator;        (* what [getValidators()] resolves to *)
  numberOfValidators : Z;
  slots : Slots
}.

(** Modelled from the spec: the forger class is not among the sources.  Its
    state is reduced to the delegates unlocked locally (address and key). *)
Record Forger : Type := {
  keypairs : list (string * string)
}.

Inductive LogLevel : Type := trace | debug | info | warn | error | fatal.

(** What the node does to the outside: logger calls, publications on the
    channel, actions invoked on the channel, node info handed to the network
    module, and calls of [forger.forge]. *)
Inductive Effect : Type :=
| Log (level : LogLevel) (msg : string)
| LogErr (level : LogLevel) (err : Error) (msg : string)
| Publish (event : string) (block : string) (accounts : list string)
| ApplyNodeInfo (height : Z) (lastBlockID : string)
                (maxHeightPrevoted : Z) (blockVersion : Z)
| ApplyPenaltyOnPeer (peerId : string) (penalty : Z)
| ForgeCalled.

(** The objects [_initModules] creates and the handlers work on. *)
Record Runtime : Type := {
  chain : Chain;
  forger : Forger;
  transactionPool : gmap string Transaction;   (* the pool, by id *)
  synchronizerIsActive : bool;                 (* synchronizer.isActive *)
  broadcastsActive : bool;                     (* constants.broadcasts.active *)
  effects : list Effect
}.

Definition emit (e : Effect) (r : Runtime) : Runtime :=
  {| chain := chain r; forger := forger r;
     transactionPool := transactionPool r;
     synchronizerIsActive := synchronizerIsActive r;
     broadcastsActive := broadcastsActive r;
     effects := effects r ++ [e] |}.

Definition withPool (p : gmap string Transaction) (r : Runtime) : Runtime :=
  {| chain := chain r; forger := forger r;
     transactionPool := p;
     synchronizerIsActive := synchronizerIsActive r;
     broadcastsActive := broadcastsActive r;
     effects := effects r |}.

Definition withChain (c : Chain) (r : Runtime) : Runtime :=
  {| chain := c; forger := forger r;
     transactionPool := transactionPool r;
     synchronizerIsActive := synchronizerIsActive r;
     broadcastsActive := broadcastsActive r;
     effects := effects r |}.

Definition withForger (f : Forger) (r : Runtime) : Runtime :=
  {| chain := chain r; forger := f;
     transactionPool := transactionPool r;
     synchronizerIsActive := synchronizerIsActive r;
     broadcastsActive := broadcastsActive r;
     effects := effects r |}.

(** The payload of a network message: an object of unknown shape, of which
    the handlers read these properties. *)
Record Payload : Type := {
  p_blockId : option string;
  p_block : option Block;
  p_transaction : option Transaction;
  p_transactionIds : option (list string);
  p_ids : option (list string)
}.

Inductive RequestSchema : Type :=
| getBlocksFromIdRequest
| postBlockEvent
| postTransactionsAnnouncementEvent
| getHighestCommonBlockRequest
| getTransactionsRequest.

Record ForgingOptions : Type := { waitThreshold : Z; force : bool }.
Record GenesisConfig : Type := {
  g_blockTime : Z;
  communityIdentifier : string
}.
Record NodeOptions : Type := {
  forging : ForgingOptions;
  genesisConfig : GenesisConfig
}.

Record BaseModule : Type := {
  m_id : Z;
  m_name : string;
  accountSchema : option string       (* the schema object, opaque *)
}.

(** [{ ...customModule.accountSchema, fieldNumber: customModule.id }] *)
Record AccountSchema : Type := {
  schema : string;
  fieldNumber : Z
}.

(** Code of other packages and classes, by what the node calls. *)
Class Collaborators : Type := {
  (* lisk-chain *)
  readGenesisBlockJSON :
    string -> gmap string AccountSchema -> completion Error Block;
  encode : Block -> string;
  encodeAccount : Account -> string;
  (* Node._initModules and the rest of bootstrap after it *)
  initModules : NodeOptions -> Block -> gmap string AccountSchema -> Runtime;
  launch : list BaseModule -> Block -> Runtime -> Runtime * completion Error unit;
  (* Forger.forge *)
  forge :
    Forger -> Chain -> gmap string Transaction ->
    (Forger * Chain * gmap string Transaction) * completion Error unit;
  (* TransactionPool.add *)
  poolAdd :
    gmap string Transaction -> Transaction ->
    gmap string Transaction * completion Error unit;
  (* validator.validate(schema, data): the messages of the errors *)
  validate : RequestSchema -> Payload -> list string;
  (* Processor.deserialize and Processor.process *)
  deserialize : option Block -> completion Error Block;
  process : Block -> string -> Chain -> Chain * completion Error unit;
  (* Transport._receiveTransaction *)
  receiveTransaction :
    option Transaction -> gmap string Transaction ->
    gmap string Transaction * completion Error string;
  (* Transport.handleEventPostTransactionsAnnouncement *)
  handleEventPostTransactionsAnnouncement :
    Payload -> string -> Runtime -> Runtime * completion Error unit
}.

(** ** Stateful computations that may throw

    [SE S A] is code running against a mutable object of type [S]: it leaves
    a new state behind whether it returns or throws. *)

Definition SE (S A : Type) : Type := S -> S * completion Error A.

#[export] Instance SE_ret {S} : MRet (SE S) :=
  fun _ a s => (s, Return a).
#[export] Instance SE_bind {S} : MBind (SE S) :=
  fun _ _ k c s =>
    match c s with
    | (s', Return a) => k a s'
    | (s', Throw e) => (s', Throw e)
    end.

Definition throw {S A} (e : Error) : SE S A := fun s => (s, Throw e).
Definition gets {S A} (f : S -> A) : SE S A := fun s => (s, Return (f s)).
Definition modify {S} (f : S -> S) : SE S unit := fun s => (f s, Return tt).
Definition liftC {S A} (c : completion Error A) : SE S A := fun s => (s, c).
Definition skip {S} : SE S unit := mret tt.

(** [try { body } catch (err) { handler(err) }] *)
Definition tryCatch {S A} (body : SE S A) (handler : Error -> SE S A)
  : SE S A :=
  fun s =>
    match body s with
    | (s', Return a) => (s', Return a)
    | (s', Throw e) => handler e s'
    end.

(** [for (const x of l) { f(x) }] *)
Fixpoint forOf {S A} (l : list A) (f : A -> SE S unit) : SE S unit :=
  match l with
  | [] => skip
  | x :: rest => f x ;; forOf rest f
  end.

(** * The transaction pool, as far as the node's handlers use it *)

Module TransactionPool.

(** Modelled from the spec: the pool class is not among the sources.  The
    pool is indexed by transaction id.  Section 4.4 has the pool evict, on a
    new block, any transaction whose id appears in the applied payload and
    any transaction from the same sender with [nonce < account.nonce]; a
    transaction is applied at [nonce = account.nonce] (section 4.1), which
    leaves the account nonce of its sender at its nonce plus one.  So
    [remove], called with an applied transaction, takes out the transaction
    with that id and the pooled transactions of that sender whose nonce does
    not exceed the applied one. *)
Definition remove (tx : Transaction) (pool : gmap string Transaction)
  : gmap string Transaction :=
  filter (fun entry : string * Transaction =>
            entry.1 <> tx_id tx
            /\ ~ (senderPublicKey entry.2 = senderPublicKey tx
                  /\ tx_nonce entry.2 <= tx_nonce tx))
         pool.

End TransactionPool.

(** * The transport handlers *)

Module Transport.

(** What [handleEventPostTransaction] resolves with:
    [{ transactionId }] or [{ errors }]. *)
Inductive handlePostTransactionReturn : Type :=
| Accepted (transactionId : string)
| Rejected (errors : Error).

(** Modelled from the spec: [dataAccess.getBlockHeaderByID] is not among the
    sources; it finds the stored block with the given id. *)
Definition getBlockHeaderByID (c : Chain) (id : string) : option BlockHeader :=
  header <$> List.find (fun b => bool_decide (b_id (header b) = id)) (blocks c).

(** Modelled from the spec: [dataAccess.getBlocksByHeightBetween] is not
    among the sources; it returns the stored blocks whose height lies
    between the two bounds, both included. *)
Definition getBlocksByHeightBetween (c : Chain) (fromHeight toHeight : Z)
  : list Block :=
  List.filter
    (fun b => (fromHeight <=? height (header b))
              && (height (header b) <=? toHeight))
    (blocks c).

Section Handlers.
Context `{Collaborators}.

(** Modelled from the spec: the transport class is not among the sources;
    the handlers follow section 4.6 and the unit tests of the class.  A
    request that fails its schema costs the peer a penalty of 100 and is
    rejected with the first validation message; otherwise the blocks from
    [parentHeight + 1] to [parentHeight + 34] are returned, encoded. *)
Definition handleRPCGetBlocksFromId (data : Payload) (peerId : string)
  : SE Runtime (list string) :=
  match validate getBlocksFromIdRequest data with
  | message :: _ =>
      modify (emit (ApplyPenaltyOnPeer peerId 100)) ;;
      throw (JsError message)
  | [] =>
      c ← gets chain ;
      match p_blockId data ≫= getBlockHeaderByID c with
      | None => throw (JsError "Invalid blockId requested")
      | Some lastBlock =>
          let lastBlockHeight := height lastBlock in
          let fetchUntilHeight := lastBlockHeight + 34 in
          mret (encode <$>
                  getBlocksByHeightBetween c (lastBlockHeight + 1)
                                           fetchUntilHeight)
      end
  end.

(** [this.processorModule.process(block, { peerId })], run against the
    chain. *)
Definition processBlock (block : Block) (peerId : string) : SE Runtime unit :=
  fun r =>
    let '(c, res) := process block peerId (chain r) in
    (withChain c r, res).

(** Modelled from the spec: a posted block is dropped unread while block
    receiving is switched off or the synchronizer is active; otherwise it is
    validated (penalty 100 and the validation errors rethrown on failure),
    deserialized and processed. *)
Definition handleEventPostBlock (data : Payload) (peerId : string)
  : SE Runtime unit :=
  active ← gets broadcastsActive ;
  if negb active then
    modify (emit (Log debug
                      "Receiving blocks disabled by user through config.json"))
  else
    syncing ← gets synchronizerIsActive ;
    if (syncing : bool) then
      modify (emit (Log debug
                "Client is syncing. Can't process new block at the moment."))
    else
      match validate postBlockEvent data with
      | message :: rest =>
          modify (emit (ApplyPenaltyOnPeer peerId 100)) ;;
          throw (ValidationErrors (message :: rest))
      | [] =>
          block ← liftC (deserialize (p_block data)) ;
          processBlock block peerId
      end.

(** [this._receiveTransaction(data.transaction)], run against the pool. *)
Definition _receiveTransaction (tx : option Transaction) : SE Runtime string :=
  fun r =>
    let '(pool, res) := receiveTransaction tx (transactionPool r) in
    (withPool pool r, res).

(** Modelled from the spec: the outcome of [_receiveTransaction] is turned
    into a value, whether it resolved or rejected. *)
Definition handleEventPostTransaction (data : Payload)
  : SE Runtime handlePostTransactionReturn :=
  tryCatch
    (id ← _receiveTransaction (p_transaction data) ;
     mret (Accepted id))
    (fun err => mret (Rejected err)).

(** Modelled from the spec: the remaining handlers that are told the sending
    peer ([getHighestCommonBlock], [getTransactions] and
    [postTransactionsAnnouncement]) are not among the sources either.
    Section 4.6 makes a malformed payload cost the peer a penalty of 100, so
    each of them validates its payload first, as [handleRPCGetBlocksFromId]
    does; what it does with a well-formed payload is not modelled and taken
    as given. *)
Definition validated {A} (schema : RequestSchema) (data : Payload)
    (peerId : string) (handle : SE Runtime A) : SE Runtime A :=
  match validate schema data with
  | message :: _ =>
      modify (emit (ApplyPenaltyOnPeer peerId 100)) ;;
      throw (JsError message)
  | [] => handle
  end.

Section WellFormed.
(** The three handlers on a well-formed payload. *)
Variable highestCommonBlock : Payload -> SE Runtime (option string).
Variable transactions : Payload -> string -> SE Runtime (list string).
Variable announcement : Payload -> string -> SE Runtime unit.



Definition handleEventPostTransactionsAnnouncement (data : Payload)
    (peerId : string) : SE Runtime unit :=
  validated postTransactionsAnnouncementEvent data peerId
            (announcement data peerId).

End WellFormed.

End Handlers.

End Transport.

(** * [node.ts] *)

Module Node.

(** The fields of the class the model needs.  [_runtime] is [None] until
    [_initModules] has created the chain, processor, pool, synchronizer,
    forger and transport; [_log] collects the logger calls of bootstrap. *)
Record Node : Type := {
  _genesisBlockJSON : option string;
  _customModules : list (GenesisConfig -> BaseModule);
  _options : NodeOptions;
  _registeredModules : list BaseModule;
  _registeredAccountSchemas : gmap string AccountSchema;
  _genesisBlock : option Block;
  _runtime : option Runtime;
  _log : list Effect
}.

(** [new Node({...})]: nothing registered, nothing created yet. *)
Definition new (genesisBlockJSON : option string)
    (customModules : list (GenesisConfig -> BaseModule))
    (options : NodeOptions) : Node :=
  {| _genesisBlockJSON := genesisBlockJSON;
     _customModules := customModules;
     _options := options;
     _registeredModules := [];
     _registeredAccountSchemas := ∅;
     _genesisBlock := None;
     _runtime := None;
     _log := [] |}.

Definition setRegisteredAccountSchema (name : string) (s : AccountSchema)
    (n : Node) : Node :=
  {| _genesisBlockJSON := _genesisBlockJSON n;
     _customModules := _customModules n;
     _options := _options n;
     _registeredModules := _registeredModules n;
     _registeredAccountSchemas := <[name := s]> (_registeredAccountSchemas n);
     _genesisBlock := _genesisBlock n;
     _runtime := _runtime n;
     _log := _log n |}.

Definition pushRegisteredModule (m : BaseModule) (n : Node) : Node :=
  {| _genesisBlockJSON := _genesisBlockJSON n;
     _customModules := _customModules n;
     _options := _options n;
     _registeredModules := _registeredModules n ++ [m];
     _registeredAccountSchemas := _registeredAccountSchemas n;
     _genesisBlock := _genesisBlock n;
     _runtime := _runtime n;
     _log := _log n |}.

Definition setGenesisBlock (b : Block) (n : Node) : Node :=
  {| _genesisBlockJSON := _genesisBlockJSON n;
     _customModules := _customModules n;
     _options := _options n;
     _registeredModules := _registeredModules n;
     _registeredAccountSchemas := _registeredAccountSchemas n;
     _genesisBlock := Some b;
     _runtime := _runtime n;
     _log := _log n |}.

Definition setRuntime (r : Runtime) (n : Node) : Node :=
  {| _genesisBlockJSON := _genesisBlockJSON n;
     _customModules := _customModules n;
     _options := _options n;
     _registeredModules := _registeredModules n;
     _registeredAccountSchemas := _registeredAccountSchemas n;
     _genesisBlock := _genesisBlock n;
     _runtime := Some r;
     _log := _log n |}.

Definition logNode (e : Effect) (n : Node) : Node :=
  {| _genesisBlockJSON := _genesisBlockJSON n;
     _customModules := _customModules n;
     _options := _options n;
     _registeredModules := _registeredModules n;
     _registeredAccountSchemas := _registeredAccountSchemas n;
     _genesisBlock := _genesisBlock n;
     _runtime := _runtime n;
     _log := _log n ++ [e] |}.

(** The body of the loop over [this._customModules]. *)
Definition registerCustomModule (genesisConfig : GenesisConfig)
    (CustomModule : GenesisConfig -> BaseModule) : SE Node unit :=
  let customModule := CustomModule genesisConfig in
  registered ← gets _registeredModules ;
  let exist :=
    List.find (fun rm => m_id rm =? m_id customModule) registered in
  match exist with
  | Some _ => throw (CustomModuleExists (m_id customModule))
  | None =>
      match accountSchema customModule with
      | Some s =>
          modify (setRegisteredAccountSchema (m_name customModule)
                    {| schema := s; fieldNumber := m_id customModule |})
      | None => skip
      end ;;
      modify (pushRegisteredModule customModule)
  end.

(** The check on [forging.waitThreshold]. *)
Definition checkWaitThreshold (options : NodeOptions) : completion Error unit :=
  throwIf (waitThreshold (forging options) >=? g_blockTime (genesisConfig options))
          (WaitThresholdTooLarge (waitThreshold (forging options))
                                 (g_blockTime (genesisConfig options))).

Section Methods.
Context `{Collaborators}.

(** [_initModules()] followed by the remainder of the [try] block. *)
Definition initAndLaunch (genesisBlock : Block) : SE Node unit :=
  fun n =>
    let created :=
      initModules (_options n) genesisBlock (_registeredAccountSchemas n) in
    let '(r, res) := launch (_registeredModules n) genesisBlock created in
    (setRuntime r n, res).

Definition bootstrap : SE Node unit :=
  tryCatch
    (json ← gets _genesisBlockJSON ;
     match json with
     | None => throw MissingGenesisBlock
     | Some genesisBlockJSON =>
         options ← gets _options ;
         customModules ← gets _customModules ;
         forOf customModules (registerCustomModule (genesisConfig options)) ;;
         schemas ← gets _registeredAccountSchemas ;
         genesisBlock ← liftC (readGenesisBlockJSON genesisBlockJSON schemas) ;
         modify (setGenesisBlock genesisBlock) ;;
         liftC (checkWaitThreshold options) ;;
         initAndLaunch genesisBlock ;;
         modify (logNode (Log info "Node ready and launched"))
     end)
    (fun error =>
       modify (logNode (LogErr fatal error "Failed to initialization node")) ;;
       throw error).

(** Modelled from the spec: [Forger.delegatesEnabled] is not among the
    sources; it tells whether some delegate is unlocked locally. *)
Definition delegatesEnabled (f : Forger) : bool :=
  match keypairs f with
  | [] => false
  | _ :: _ => true
  end.

(** [await this._forger.forge()], run against forger, chain and pool. *)
Definition callForge : SE Runtime unit :=
  fun r =>
    let '((f, c, p), res) :=
      forge (forger r) (chain r) (transactionPool r) in
    (withPool p (withChain c (withForger f (emit ForgeCalled r))), res).

Definition _forgingTask : SE Runtime unit :=
  tryCatch
    (enabled ← gets (fun r => delegatesEnabled (forger r)) ;
     if negb enabled then
       modify (emit (Log trace "No delegates are enabled"))
     else
       isActive ← gets synchronizerIsActive ;
       if (isActive : bool) then
         modify (emit (Log debug "Client not ready to forge"))
       else callForge)
    (fun err => modify (emit (LogErr error err ""))).

(** The handler of [EVENT_NEW_BLOCK]. *)
Definition onNewBlock (block : Block) (accounts : list Account)
  : SE Runtime unit :=
  modify (emit (Publish "app:block:new" (encode block)
                        (encodeAccount <$> accounts))) ;;
  (* Remove any transactions from the pool on new block *)
  (if 0 <? Z.of_nat (length (payload block)) then
     forOf (payload block)
       (fun transaction =>
          modify (fun r =>
            withPool (TransactionPool.remove transaction (transactionPool r)) r))
   else skip) ;;
  isActive ← gets synchronizerIsActive ;
  (if negb isActive then
     modify (emit (ApplyNodeInfo (height (header block)) (b_id (header block))
                                 (maxHeightPrevoted (header block))
                                 (b_version (header block))))
   else skip) ;;
  modify (emit (Log info "New block added to the chain")).

(** [await this._transactionPool.add(transaction)] *)
Definition addToPool (transaction : Transaction) : SE Runtime unit :=
  fun r =>
    let '(p, res) := poolAdd (transactionPool r) transaction in
    (withPool p r, res).

(** The handler of [EVENT_DELETE_BLOCK]. *)
Definition onDeleteBlock (block : Block) (accounts : list Account)
  : SE Runtime unit :=
  modify (emit (Publish "app:block:delete" (encode block)
                        (encodeAccount <$> accounts))) ;;
  (if 0 <? Z.of_nat (length (payload block)) then
     forOf (payload block)
       (fun transaction =>
          tryCatch (addToPool transaction)
            (fun err =>
               modify (emit (LogErr error err
                         "Failed to add transaction back to the pool"))))
   else skip) ;;
  modify (emit (Log info "Deleted a block from the chain")).

(** The subscriber of ['app:network:event']. *)
Definition onNetworkEvent (event : string) (data : Payload) (peerId : string)
  : SE Runtime unit :=
  tryCatch
    (if bool_decide (event = "postTransactionsAnnouncement") then
       handleEventPostTransactionsAnnouncement data peerId
     else if bool_decide (event = "postBlock") then
       Transport.handleEventPostBlock data peerId
     else skip)
    (fun err => modify (emit (LogErr warn err "Received invalid event message"))).

(** The actions [getBlocksFromId] and [postTransaction] hand over to the
    transport. *)
Definition getBlocksFromId (data : Payload) (peerId : string)
  : SE Runtime (list string) :=
  Transport.handleRPCGetBlocksFromId data peerId.

Definition postTransaction (params : Payload)
  : SE Runtime Transport.handlePostTransactionReturn :=
  Transport.handleEventPostTransaction params.

End Methods.

(** ** The [getValidators] action *)

Record ForgerInfo : Type := {
  fi_address : string;
  nextForgingTime : Z
}.

(** [a % b] on integers: the sign of the dividend, [NaN] ([None]) for a zero
    divisor. *)
Definition jsRem (a b : Z) : option Z :=
  if b =? 0 then None else Some (Z.rem a b).

(** [arr[i % arr.length]]: [undefined] ([None]) when the index is [NaN],
    negative or past the end. *)
Definition atModLength {A} (arr : list A) (i : Z) : option A :=
  match jsRem i (Z.of_nat (length arr)) with
  | Some k => if k <? 0 then None else arr !! Z.to_nat k
  | None => None
  end.

(** The [for] loop, by the number of iterations left: [i] runs from
    [slotInRound] up to [slotInRound + numberOfValidators - 1]. *)
Fixpoint getValidatorsLoop (left : nat) (validatorAddresses : list string)
    (blockTime : Z) (i nextForgingTime : Z) (forgersInfo : list ForgerInfo)
  : completion Error (list ForgerInfo) :=
  match left with
  | O => Return forgersInfo
  | S left' =>
      match atModLength validatorAddresses i with
      | None => Throw (TypeError "Cannot read property 'toString' of undefined")
      | Some a =>
          getValidatorsLoop left' validatorAddresses blockTime (i + 1)
            (nextForgingTime + blockTime)
            (forgersInfo ++ [{| fi_address := a;
                                nextForgingTime := nextForgingTime |}])
      end
  end.

Definition getValidators (c : Chain) (now : Z)
  : completion Error (list ForgerInfo) :=
  let validatorAddresses := v_address <$> validators c in
  let slot := getSlotNumber (slots c) now in
  let startTime := getSlotTime (slots c) slot in
  match jsRem slot (numberOfValidators c) with
  | None => Return []   (* slotInRound is NaN and the loop test fails *)
  | Some slotInRound =>
      getValidatorsLoop (Z.to_nat (numberOfValidators c)) validatorAddresses
        (blockTime (slots c)) slotInRound startTime []
  end.

(** ** Reference functions for the properties *)

(** The account schemas the registration loop leaves behind, module by
    module: a module with a schema writes the entry under its name. *)
Definition schemasOf (acc : gmap string AccountSchema) (mods : list BaseModule)
  : gmap string AccountSchema :=
  foldl (fun acc m =>
           match accountSchema m with
           | Some s => <[m_name m := {| schema := s; fieldNumber := m_id m |}]> acc
           | None => acc
           end) acc mods.

(** Adding the transactions one after the other, whatever each [add] does:
    the pool at the end and the errors thrown on the way. *)
Fixpoint readmitAll `{Collaborators} (pool : gmap string Transaction)
    (txs : list Transaction) : gmap string Transaction * list Error :=
  match txs with
  | [] => (pool, [])
  | tx :: rest =>
      let '(pool', res) := poolAdd pool tx in
      let '(final, errs) := readmitAll pool' rest in
      (final, match res with Throw e => e :: errs | Return _ => errs end)
  end.

End Node.

(** * Sample data, for the examples *)

Module Sample.

(** Collaborators that do as little as possible: the genesis block is read
    as an empty block, the pool accepts a transaction unless its id is
    taken, a request is well-formed when it carries the property its handler
    reads, and forging appends nothing. *)
Definition genesis : Block :=
  {| header := {| b_id := "genesis"; b_version := 0; height := 0;
                  maxHeightPrevoted := 0 |};
     payload := [] |}.

Definition slots10 : Slots :=
  {| getSlotNumber := fun t => t / 10;
     getSlotTime := fun s => s * 10;
     blockTime := 10 |}.

Definition validator (a : string) : Validator :=
  {| v_address := a; isConsensusParticipant := true; minActiveHeight := 0 |}.

Definition blockAt (id : string) (h : Z) (txs : list Transaction) : Block :=
  {| header := {| b_id := id; b_version := 2; height := h;
                  maxHeightPrevoted := 0 |};
     payload := txs |}.

Definition chain0 : Chain :=
  {| lastBlock := blockAt "b2" 2 [];
     blocks := [genesis; blockAt "b1" 1 []; blockAt "b2" 2 []];
     validators := [validator "v0"; validator "v1"; validator "v2"];
     numberOfValidators := 3;
     slots := slots10 |}.

(** The same chain with the third validator missing from the list, the
    round length still three. *)
Definition chainShort : Chain :=
  {| lastBlock := blockAt "b2" 2 [];
     blocks := [genesis; blockAt "b1" 1 []; blockAt "b2" 2 []];
     validators := [validator "v0"; validator "v1"];
     numberOfValidators := 3;
     slots := slots10 |}.

Definition runtime0 (syncing receiving : bool)
    (pool : gmap string Transaction) : Runtime :=
  {| chain := chain0;
     forger := {| keypairs := [("v1", "key1")] |};
     transactionPool := pool;
     synchronizerIsActive := syncing;
     broadcastsActive := receiving;
     effects := [] |}.

Definition collaborators : Collaborators :=
  {| readGenesisBlockJSON := fun _ _ => Return genesis;
     encode := fun b => b_id (header b);
     encodeAccount := address;
     initModules := fun _ _ _ => runtime0 false true ∅;
     launch := fun _ _ r => (r, Return tt);
     forge := fun f c p => ((f, c, p), Return tt);
     poolAdd := fun p tx =>
       match p !! tx_id tx with
       | Some _ => (p, Throw (JsError "Transaction already in the pool"))
       | None => (<[tx_id tx := tx]> p, Return tt)
       end;
     validate := fun s data =>
       match s with
       | getBlocksFromIdRequest =>
           match p_blockId data with
           | Some _ => []
           | None => ["should have required property 'blockId'"]
           end
       | postBlockEvent =>
           match p_block data with
           | Some _ => []
           | None => ["should have required property 'block'"]
           end
       | postTransactionsAnnouncementEvent =>
           match p_transactionIds data with
           | Some _ => []
           | None => ["should have required property 'transactionIds'"]
           end
       | getHighestCommonBlockRequest =>
           match p_ids data with
           | Some _ => []
           | None => ["should have required property 'ids'"]
           end
       | getTransactionsRequest =>
           match p_transactionIds data with
           | Some _ => []
           | None => ["should have required property 'transactionIds'"]
           end
       end;
     deserialize := fun b =>
       match b with
       | Some b => Return b
       | None => Throw (JsError "no block")
       end;
     process := fun _ _ c => (c, Return tt);
     receiveTransaction := fun tx p =>
       match tx with
       | Some tx => (<[tx_id tx := tx]> p, Return (tx_id tx))
       | None => (p, Throw (JsError "Invalid transaction body"))
       end;
     handleEventPostTransactionsAnnouncement := fun _ _ r => (r, Return tt) |}.


Definition emptyPayload : Payload :=
  {| p_blockId := None; p_block := None; p_transaction := None;
     p_transactionIds := None; p_ids := None |}.

Definition options (waitThreshold blockTime : Z) : NodeOptions :=
  {| forging := {| waitThreshold := waitThreshold; force := false |};
     genesisConfig := {| g_blockTime := blockTime;
                         communityIdentifier := "Lisk" |} |}.

Definition tx (id sender : string) (nonce : Z) : Transaction :=
  {| tx_id := id; senderPublicKey := sender; tx_nonce := nonce; tx_fee := 1 |}.

End Sample.

(** * [node.ts]: the block and transaction lookups and the schema list *)

Module Actions.

(** [customModule.transactionAssets]: what the schema list reads of an
    asset. *)
Record CustomAsset : Type := {
  asset_id : Z;
  asset_schema : string
}.

Record RegisteredSchema : Type := {
  moduleID : Z;
  assetID : Z;
  rs_schema : string
}.

Section Lookups.
Context `{Collaborators}.
(** [dataAccess.getBlockByID] and [dataAccess.getTransactionByID], taking
    the id as the action receives it; [tx.getBytes().toString('base64')];
    and the test [error instanceof NotFoundError]. *)
Variable getBlockByID : string -> completion Error Block.
Variable getTransactionByID : string -> completion Error Transaction.
Variable getBytes : Transaction -> string.
Variable isNotFoundError : Error -> bool.

(** The [catch] clause of both lookups: a [NotFoundError] is swallowed,
    anything else is thrown again. *)
Definition swallowNotFound {S} (error : Error) : SE S unit :=
  if negb (isNotFoundError error) then throw error else skip.

(** The action [getBlocksByIDs]; the state of the computation is the array
    [blocks]. *)
Definition getBlocksByIDs (ids : list string) : completion Error (list string) :=
  let '(blocks, res) :=
    tryCatch
      (forOf ids (fun id =>
         block ← liftC (getBlockByID id) ;
         modify (fun blocks : list Block => blocks ++ [block])))
      swallowNotFound [] in
  match res with
  | Return _ => Return (encode <$> blocks)
  | Throw e => Throw e
  end.

(** The action [getTransactionsByIDs]; the state is the array
    [transactions]. *)
Definition getTransactionsByIDs (ids : list string)
  : completion Error (list string) :=
  let '(transactions, res) :=
    tryCatch
      (forOf ids (fun id =>
         transaction ← liftC (getTransactionByID id) ;
         modify (fun transactions : list Transaction =>
                   transactions ++ [transaction])))
      swallowNotFound [] in
  match res with
  | Return _ => Return (getBytes <$> transactions)
  | Throw e => Throw e
  end.

End Lookups.

(** [_getRegisteredTransactionSchemas]: the two nested loops push one entry
    per asset of every registered module; the state is [registeredSchemas]. *)
Definition _getRegisteredTransactionSchemas
    (transactionAssets : BaseModule -> list CustomAsset) (n : Node.Node)
  : list RegisteredSchema :=
  fst (forOf (Node._registeredModules n)
         (fun customModule =>
            forOf (transactionAssets customModule)
              (fun customAsset =>
                 modify (fun registeredSchemas : list RegisteredSchema =>
                   registeredSchemas
                   ++ [{| moduleID := m_id customModule;
                          assetID := asset_id customAsset;
                          rs_schema := asset_schema customAsset |}])))
         []).

End Actions.

(** * The transaction interface adapter ([unnamed/part_000]) *)

Module TransactionInterfaceAdapter.

Section Adapter.
(** The keys of the [Map]: JS numbers, compared as [Map] compares them.
    [Number] is the conversion of a property name, [RawTx] the JSON of a
    transaction with its [type], and a transaction class is its
    constructor. *)
Context {Num : Type} `{EqDecision Num}.
Context {RawTx Tx : Type}.
Variable Number : string -> Num.
Variable type : RawTx -> Num.

(** [Map.prototype.set]: an existing key keeps its place and takes the new
    value, a new key goes to the end. *)
Fixpoint mapSet {V} (k : Num) (v : V) (m : list (Num * V)) : list (Num * V) :=
  match m with
  | [] => [(k, v)]
  | (k', v') :: rest =>
      if decide (k' = k) then (k, v) :: rest else (k', v') :: mapSet k v rest
  end.

(** [Map.prototype.get] *)
Fixpoint mapGet {V} (k : Num) (m : list (Num * V)) : option V :=
  match m with
  | [] => None
  | (k', v') :: rest => if decide (k' = k) then Some v' else mapGet k rest
  end.

(** [registeredTransactions[transactionType]] on an object given by its own
    properties, in the order [Object.keys] lists them. *)
Fixpoint property {V} (name : string) (object : list (string * V)) : option V :=
  match object with
  | [] => None
  | (name', v) :: rest =>
      if decide (name' = name) then Some v else property name rest
  end.

(** The constructor: [_transactionClassMap] after the [forEach] over
    [Object.keys(registeredTransactions)]. *)
Definition new (registeredTransactions : list (string * (RawTx -> completion Error Tx)))
  : list (Num * (RawTx -> completion Error Tx)) :=
  foldl (fun _transactionClassMap transactionType =>
           match property transactionType registeredTransactions with
           | Some TransactionClass =>
               mapSet (Number transactionType) TransactionClass
                      _transactionClassMap
           | None => _transactionClassMap
           end)
        [] (fst <$> registeredTransactions).

Definition fromJSON (_transactionClassMap : list (Num * (RawTx -> completion Error Tx)))
    (rawTx : RawTx) : completion Error Tx :=
  match mapGet (type rawTx) _transactionClassMap with
  | None => Throw (JsError "Transaction type not found.")
  | Some TransactionClass => TransactionClass rawTx
  end.

End Adapter.

End TransactionInterfaceAdapter.

(** * More sample data *)

Module SampleActions.

(** Lookups in the sample chain; any other failure is not a
    [NotFoundError]. *)
Definition notFound : Error := JsError "NotFoundError".

Definition getBlockByID (id : string) : completion Error Block :=
  match List.find (fun b => bool_decide (b_id (header b) = id))
                  (blocks Sample.chain0) with
  | Some b => Return b
  | None => Throw notFound
  end.

Definition isNotFoundError (e : Error) : bool :=
  match e with
  | JsError message => bool_decide (message = "NotFoundError")
  | _ => false
  end.

Definition assetsOf (m : BaseModule) : list Actions.CustomAsset :=
  if m_id m =? 2
  then [{| Actions.asset_id := 0; Actions.asset_schema := "transfer" |}]
  else [].

(** Transaction classes told apart by the tag they put on the JSON. *)
Definition classOf (tag : string) (rawTx : Z * string)
  : completion Error (string * Z) :=
  Return (tag, fst rawTx).

(** [Number] on the property names of the samples. *)
Definition toNumber (name : string) : option Z :=
  if bool_decide (name = "8") then Some 8
  else if bool_decide (name = "08") then Some 8
  else if bool_decide (name = "12") then Some 12
  else None.

End SampleActions.

(** * Properties *)

(** ** Numbers *)

Section NumberFacts.
Import RegisterMultisignature.

Lemma isValidInteger_Finite q :
  isValidInteger (Finite q) = true <-> exists z : Z, Qeq q (inject_Z z).
Proof.
  unfold isValidInteger. rewrite Qeq_bool_iff. split.
  - intros Hq. exists (Qfloor q). symmetry. exact Hq.
  - intros [z Hz]. rewrite (Qfloor_comp _ _ Hz), Qfloor_Z.
    symmetry. exact Hz.
Qed.

Lemma Qltb_inject_Z (x y : Z) : Qltb (inject_Z x) (inject_Z y) = (x <? y).
Proof.
  unfold Qltb. destruct (Z.ltb_spec x y) as [Hlt | Hge].
  - apply negb_true_iff. apply not_true_is_false. rewrite Qle_bool_iff.
    rewrite <- Zle_Qle. lia.
  - apply negb_false_iff. rewrite Qle_bool_iff. rewrite <- Zle_Qle. lia.
Qed.

Lemma Qltb_compat_l q z k :
  Qeq q (inject_Z z) -> Qltb q (inject_Z k) = (z <? k).
Proof.
  intros Hq. rewrite <- Qltb_inject_Z. unfold Qltb. f_equal.
  apply eq_true_iff_eq. rewrite !Qle_bool_iff. rewrite Hq. reflexivity.
Qed.

Lemma Qltb_compat_r q z k :
  Qeq q (inject_Z z) -> Qltb (inject_Z k) q = (k <? z).
Proof.
  intros Hq. rewrite <- Qltb_inject_Z. unfold Qltb. f_equal.
  apply eq_true_iff_eq. rewrite !Qle_bool_iff. rewrite Hq. reflexivity.
Qed.

Lemma num_lt_integer n z k : isInteger n z -> num_lt n (ofZ k) = (z <? k).
Proof.
  destruct n; simpl; try contradiction. apply Qltb_compat_l.
Qed.

Lemma num_gt_integer n z k : isInteger n z -> num_gt n (ofZ k) = (k <? z).
Proof.
  unfold num_gt. destruct n; simpl; try contradiction. apply Qltb_compat_r.
Qed.

Lemma num_gt_integer_l n z k : isInteger n z -> num_gt (ofZ k) n = (z <? k).
Proof.
  unfold num_gt. destruct n; simpl; try contradiction. apply Qltb_compat_l.
Qed.

(** A number that passes the first check of [validateInputs] is an integer
    in range. *)
Lemma number_in_range_inv n lo hi :
  negb (isValidInteger n) || num_lt n (ofZ lo) || num_gt n (ofZ hi) = false ->
  exists z, isInteger n z /\ lo <= z <= hi.
Proof.
  intros Hc. apply orb_false_iff in Hc as [Hc Hhi].
  apply orb_false_iff in Hc as [Hint Hlo]. apply negb_false_iff in Hint.
  destruct n as [q | | |];
    [ | discriminate Hint | discriminate Hhi | discriminate Hlo ].
  apply isValidInteger_Finite in Hint as [z Hz]. exists z.
  assert (Hi : isInteger (Finite q) z) by exact Hz.
  rewrite (num_lt_integer _ z _ Hi) in Hlo.
  rewrite (num_gt_integer _ z _ Hi) in Hhi. split; [exact Hi | lia].
Qed.

End NumberFacts.

(** ** The error monad *)

Lemma throwIf_bind_Return {E B} (c : bool) (e : E) (k : completion E B) v :
  (throwIf c e ;; k) = Return v <-> c = false /\ k = Return v.
Proof.
  destruct c; simpl; split; try (intros [? ?]); try discriminate; auto.
Qed.

Lemma completion_cases {E A} (c : completion E A) :
  (exists a, c = Return a) \/ (exists e, c = Throw e).
Proof. destruct c; eauto. Qed.

(** ** [registerMultisignature] *)

Section RegisterMultisignatureFacts.
Import RegisterMultisignature.

Lemma uniqueKeys_length_le seen keys :
  (length (uniqueKeys seen keys) <= length keys)%nat.
Proof.
  revert seen. induction keys as [| k rest IH]; intros seen; simpl.
  - lia.
  - case_bool_decide; simpl.
    + specialize (IH seen). lia.
    + specialize (IH (k :: seen)). lia.
Qed.

(** [new Set(keys)] keeps every element exactly when no key is repeated
    (and none was seen before). *)
Lemma uniqueKeys_length_eq seen keys :
  length (uniqueKeys seen keys) = length keys
  <-> NoDup keys /\ (forall k, k ∈ keys -> k ∉ seen).
Proof.
  revert seen. induction keys as [| k rest IH]; intros seen; simpl.
  - split; [intros _ | reflexivity]. split; [constructor |].
    intros k Hk. inversion Hk.
  - case_bool_decide as Hseen; simpl.
    + split.
      * intros Hlen. pose proof (uniqueKeys_length_le seen rest). lia.
      * intros [_ Hfresh]. exfalso. apply (Hfresh k); [left | exact Hseen].
    + split.
      * intros Hlen. injection Hlen as Hlen. apply IH in Hlen as [Hnd Hfresh].
        split.
        -- constructor; [| exact Hnd]. intros Hin.
           apply (Hfresh k Hin). left.
        -- intros x Hx Hxs. apply elem_of_cons in Hx as [-> | Hx];
             [exact (Hseen Hxs) |]. apply (Hfresh x Hx). right. exact Hxs.
      * intros [Hnd Hfresh]. f_equal. apply IH.
        apply NoDup_cons in Hnd as [Hk Hnd]. split; [exact Hnd |].
        intros x Hx Hxs. apply elem_of_cons in Hxs as [-> | Hxs];
          [exact (Hk Hx) |]. apply (Hfresh x); [right; exact Hx | exact Hxs].
Qed.

Lemma repeated_check keys :
  (Z.of_nat (length (uniqueKeys [] keys)) <? Z.of_nat (length keys)) = false
  <-> NoDup keys.
Proof.
  rewrite Z.ltb_ge. pose proof (uniqueKeys_length_le [] keys) as Hle.
  pose proof (uniqueKeys_length_eq [] keys) as Heq. split.
  - intros Hge. apply Heq. lia.
  - intros Hnd. destruct Heq as [_ Heq]. rewrite Heq; [lia |].
    split; [exact Hnd |]. intros k _ Hk. inversion Hk.
Qed.

Lemma findRepeatedKeys_check (o m : list string) :
  (0 <? Z.of_nat (length (findRepeatedKeys o m))) = false
  <-> (forall k, k ∈ m -> k ∉ o).
Proof.
  rewrite Z.ltb_ge. unfold findRepeatedKeys. split.
  - intros Hlen k Hm Ho.
    assert (Hin : k ∈ List.filter (fun k => bool_decide (k ∈ m)) o).
    { apply list_elem_of_In, filter_In. split.
      - apply list_elem_of_In. exact Ho.
      - apply bool_decide_eq_true. exact Hm. }
    destruct (List.filter _ o); [inversion Hin | simpl in Hlen; lia].
  - intros Hdisj.
    destruct (List.filter (fun k => bool_decide (k ∈ m)) o) as [| k rest] eqn:Hf;
      [simpl; lia |].
    exfalso. assert (Hin : In k (List.filter (fun k => bool_decide (k ∈ m)) o))
      by (rewrite Hf; left; reflexivity).
    apply filter_In in Hin as [Ho Hm]. apply bool_decide_eq_true in Hm.
    apply (Hdisj k Hm). apply list_elem_of_In. exact Ho.
Qed.

Section Validate.
Variables MAXK MAXS MINK MINS : Z.
Variables isValidNonce isValidFee : string -> bool.
Variable validateNetworkIdentifier : string -> completion Error unit.

(** [validateInputs] returns exactly on the inputs the specification calls
    valid whose nonce, fee and network identifier are accepted as well. *)
Lemma validateInputs_Return_iff inputs :
  validateInputs MAXK MAXS MINK MINS isValidNonce isValidFee
    validateNetworkIdentifier
    {| mandatoryPublicKeys := mandatoryKeys inputs;
       optionalPublicKeys := optionalKeys inputs;
       v_numberOfSignatures := numberOfSignatures inputs;
       v_networkIdentifier := networkIdentifier inputs;
       v_fee := fee inputs;
       v_nonce := nonce inputs |} = Return tt
  <-> isValidNonce (nonce inputs) = true
      /\ isValidFee (fee inputs) = true
      /\ keysAndSignaturesValid MAXK MAXS MINK MINS inputs
      /\ validateNetworkIdentifier (networkIdentifier inputs) = Return tt.
Proof.
  unfold validateInputs, keysAndSignaturesValid. cbn [mandatoryPublicKeys
    optionalPublicKeys v_numberOfSignatures v_networkIdentifier v_fee v_nonce].
  rewrite !throwIf_bind_Return.
  rewrite !negb_false_iff, findRepeatedKeys_check, !repeated_check.
  set (m := mandatoryKeys inputs). set (o := optionalKeys inputs).
  set (n := numberOfSignatures inputs).
  split.
  - intros (Hnonce & Hfee & Hrange & Hmand & Hall & Hkeys & Hbetween & Hm & Ho
            & Hnet).
    apply number_in_range_inv in Hrange as (z & Hz & Hzr).
    unfold lengthN in Hmand.
    rewrite (num_gt_integer_l _ z _ Hz) in Hmand.
    rewrite (num_gt_integer _ z _ Hz) in Hall.
    apply orb_false_iff in Hkeys as [Hmax Hmin].
    rewrite Z.gtb_ltb in Hmax.
    apply Z.ltb_ge in Hmand, Hall, Hmax, Hmin.
    split; [exact Hnonce |]. split; [exact Hfee |]. split; [| exact Hnet].
    clearbody m o n.
    split; [exists z; split; [exact Hz | lia] |].
    split; [lia |]. split; [exact Hbetween |]. split; assumption.
  - intros (Hnonce & Hfee & ((z & Hz & Hzr & Hzk) & Hkeys & Hbetween & Hm & Ho)
            & Hnet).
    unfold lengthN.
    rewrite (num_gt_integer_l _ z _ Hz), !(num_gt_integer _ z _ Hz),
      (num_lt_integer _ z _ Hz).
    assert (Hint : isValidInteger n = true).
    { destruct n as [q | | |]; try contradiction.
      apply isValidInteger_Finite. exists z. exact Hz. }
    rewrite Hint. simpl negb. rewrite !orb_false_iff, Z.gtb_ltb, !Z.ltb_ge.
    repeat split; try assumption; lia.
Qed.

End Validate.

Lemma disjoint_by_computation (m o : list string) :
  forallb (fun k => negb (bool_decide (k ∈ o))) m = true ->
  forall k, k ∈ m -> k ∉ o.
Proof.
  intros Hall k Hk. rewrite forallb_forall in Hall.
  specialize (Hall k (proj1 (list_elem_of_In _ _) Hk)).
  apply negb_true_iff, bool_decide_eq_false in Hall. exact Hall.
Qed.

Lemma NoDup_by_computation (l : list string) :
  bool_decide (NoDup l) = true -> NoDup l.
Proof. apply bool_decide_eq_true. Qed.

(** C10, as stated, fails: the keys and [numberOfSignatures] below meet
    every condition of the claim, and [registerMultisignature] still throws,
    because the nonce is not a number string. *)
Lemma registerMultisignature_valid_keys_invalid_nonce_throws :
  keysAndSignaturesValid 64 64 1 1 (sampleInputs "abc")
  /\ registerMultisignature 64 64 1 1 isNumberString isNumberString
       (fun _ => Return tt) unit (fun _ => tt) (fun _ _ _ _ => Return [])
       (sampleInputs "abc")
     = Throw ErrNonce.
Proof.
  split; [| reflexivity].
  unfold keysAndSignaturesValid, sampleInputs; simpl.
  split; [exists 2; split; [reflexivity | lia] |].
  split; [lia |].
  split; [apply disjoint_by_computation; reflexivity |].
  split; apply NoDup_by_computation; reflexivity.
Qed.

(** C10 (amended): [registerMultisignature] throws whenever the keys or
    [numberOfSignatures] break one of the listed conditions.  When they all
    hold and, in addition, nonce, fee and network identifier are accepted,
    it returns the type-12 transaction with exactly the given keys and
    [numberOfSignatures] in its asset: unsigned when [passphrases] or
    [senderPassphrase] is absent (or the latter empty), and otherwise with
    the signatures [signAll] leaves, or [signAll]'s error. *)
Theorem registerMultisignature_spec
    (MAXK MAXS MINK MINS : Z) (isValidNonce isValidFee : string -> bool)
    (validateNetworkIdentifier : string -> completion Error unit)
    (BaseFields : Type)
    (createBaseTransaction : RegisterMultisignatureInputs -> BaseFields)
    (signAll : string -> string -> list string -> MultisignatureAsset ->
               completion Error (list string))
    (inputs : RegisterMultisignatureInputs) :
  let run :=
    registerMultisignature MAXK MAXS MINK MINS isValidNonce isValidFee
      validateNetworkIdentifier BaseFields createBaseTransaction signAll
      inputs in
  let tx sigs :=
    {| base := createBaseTransaction inputs;
       type := 12;
       t_networkIdentifier := networkIdentifier inputs;
       asset := assetOf inputs;
       signatures := sigs |} in
  (~ keysAndSignaturesValid MAXK MAXS MINK MINS inputs ->
   exists e, run = Throw e)
  /\ (keysAndSignaturesValid MAXK MAXS MINK MINS inputs ->
      isValidNonce (nonce inputs) = true ->
      isValidFee (fee inputs) = true ->
      validateNetworkIdentifier (networkIdentifier inputs) = Return tt ->
      (passphrases inputs = None \/ senderPassphrase inputs = None
       \/ senderPassphrase inputs = Some "" ->
       run = Return (tx []))
      /\ (forall ps sp,
            passphrases inputs = Some ps ->
            senderPassphrase inputs = Some sp -> sp <> "" ->
            run = (sigs ← signAll (networkIdentifier inputs) sp ps
                                  (assetOf inputs) ;
                   Return (tx sigs)))).
Proof.
  intros run tx.
  pose proof (validateInputs_Return_iff MAXK MAXS MINK MINS isValidNonce
                isValidFee validateNetworkIdentifier inputs) as Hv.
  split.
  - intros Hbad. subst run. unfold registerMultisignature.
    destruct (completion_cases (validateInputs MAXK MAXS MINK MINS isValidNonce
      isValidFee validateNetworkIdentifier
      {| mandatoryPublicKeys := mandatoryKeys inputs;
         optionalPublicKeys := optionalKeys inputs;
         v_numberOfSignatures := numberOfSignatures inputs;
         v_networkIdentifier := networkIdentifier inputs;
         v_fee := fee inputs;
         v_nonce := nonce inputs |})) as [[[] Hret] | [e He]].
    + exfalso. apply Hbad. apply Hv in Hret. tauto.
    + exists e. rewrite He. reflexivity.
  - intros Hkeys Hnonce Hfee Hnet.
    assert (Hret : validateInputs MAXK MAXS MINK MINS isValidNonce
      isValidFee validateNetworkIdentifier
      {| mandatoryPublicKeys := mandatoryKeys inputs;
         optionalPublicKeys := optionalKeys inputs;
         v_numberOfSignatures := numberOfSignatures inputs;
         v_networkIdentifier := networkIdentifier inputs;
         v_fee := fee inputs;
         v_nonce := nonce inputs |} = Return tt) by (apply Hv; tauto).
    subst run. unfold registerMultisignature. rewrite Hret. split.
    + intros [Hp | [Hs | Hs]]; rewrite Hp || rewrite Hs; simpl.
      * reflexivity.
      * rewrite orb_true_r. reflexivity.
      * rewrite orb_true_r. reflexivity.
    + intros ps sp Hp Hs Hne. rewrite Hp, Hs. simpl.
      rewrite bool_decide_eq_false_2 by exact Hne. reflexivity.
Qed.

(** The amended property at sample inputs with an accepted nonce. *)
Lemma registerMultisignature_spec_witness :
  registerMultisignature 64 64 1 1 isNumberString isNumberString
    (fun _ => Return tt) unit (fun _ => tt) (fun _ _ _ _ => Return [])
    (sampleInputs "5")
  = Return {| base := tt; type := 12; t_networkIdentifier := "net";
              asset := assetOf (sampleInputs "5"); signatures := [] |}.
Proof.
  apply (proj2 (registerMultisignature_spec 64 64 1 1 isNumberString
                  isNumberString (fun _ => Return tt) unit (fun _ => tt)
                  (fun _ _ _ _ => Return []) (sampleInputs "5"))).
  - unfold keysAndSignaturesValid, sampleInputs; simpl.
    split; [exists 2; split; [reflexivity | lia] |].
    split; [lia |].
    split; [apply disjoint_by_computation; reflexivity |].
    split; apply NoDup_by_computation; reflexivity.
  - reflexivity.
  - reflexivity.
  - reflexivity.
  - left. reflexivity.
Defined.

End RegisterMultisignatureFacts.

(** ** The forging task *)

Section ForgingTaskFacts.
Context `{Collaborators}.

(** When nothing holds it back, the task does call [forge]: the guards of
    the model are not vacuous. *)
Lemma forgingTask_forges (r : Runtime) :
  Node.delegatesEnabled (forger r) = true ->
  synchronizerIsActive r = false ->
  exists r', fst (Node._forgingTask r) = r' /\ ForgeCalled ∈ effects r'.
Proof.
  intros Hen Hsync. eexists. split; [reflexivity |].
  unfold Node._forgingTask, tryCatch, mbind, SE_bind, gets. simpl.
  rewrite Hen. simpl. rewrite Hsync. simpl. unfold Node.callForge.
  destruct (forge (forger r) (chain r) (transactionPool r)) as [[[f c] p] res].
  destruct res; simpl; set_solver.
Qed.

End ForgingTaskFacts.

(** C1: a forging tick while the synchronizer is active is a no-op.  The
    task returns normally, [forge] is not called (the only effect is one
    trace or debug line of the logger), and chain, pool and forger are left
    as they were, whatever the time and whichever delegates are unlocked. *)
Theorem forgingTask_noop_while_syncing (env : Collaborators) (r : Runtime) :
  synchronizerIsActive r = true ->
  exists entry,
    Node._forgingTask r = (emit entry r, Return tt)
    /\ (entry = Log trace "No delegates are enabled"
        \/ entry = Log debug "Client not ready to forge")
    /\ (ForgeCalled ∉ [entry])
    /\ chain (emit entry r) = chain r
    /\ transactionPool (emit entry r) = transactionPool r
    /\ forger (emit entry r) = forger r.
Proof.
  intros Hsync.
  unfold Node._forgingTask, tryCatch, mbind, SE_bind, gets, modify. simpl.
  destruct (Node.delegatesEnabled (forger r)); simpl; try rewrite Hsync;
    simpl; eexists;
    (split; [reflexivity |]);
    (split; [auto |]);
    (split; [| auto]);
    intros Hin; apply list_elem_of_singleton in Hin; discriminate.
Qed.

(** C1 at a node whose delegate is unlocked and whose synchronizer runs. *)
Lemma forgingTask_noop_while_syncing_witness :
  exists entry,
    Node._forgingTask (H := Sample.collaborators) (Sample.runtime0 true true ∅)
    = (emit entry (Sample.runtime0 true true ∅), Return tt)
    /\ (entry = Log trace "No delegates are enabled"
        \/ entry = Log debug "Client not ready to forge")
    /\ (ForgeCalled ∉ [entry])
    /\ chain (emit entry (Sample.runtime0 true true ∅)) = Sample.chain0
    /\ transactionPool (emit entry (Sample.runtime0 true true ∅)) = ∅
    /\ forger (emit entry (Sample.runtime0 true true ∅))
       = {| keypairs := [("v1", "key1")] |}.
Proof.
  apply (forgingTask_noop_while_syncing Sample.collaborators
           (Sample.runtime0 true true ∅)).
  reflexivity.
Defined.

(** ** The chain event handlers *)

Section EventHandlerFacts.
Context `{Collaborators}.

(** The loop over the payload of a new block removes the transactions one
    by one and touches nothing but the pool. *)
Lemma removeLoop_spec (txs : list Transaction) (r : Runtime) :
  forOf txs
    (fun transaction =>
       modify (fun r =>
         withPool (TransactionPool.remove transaction (transactionPool r)) r)) r
  = (withPool (foldl (fun p tx => TransactionPool.remove tx p)
                     (transactionPool r) txs) r,
     Return tt).
Proof.
  revert r. induction txs as [| tx rest IH]; intros r.
  - destruct r; reflexivity.
  - cbn [forOf foldl]. unfold mbind, SE_bind, modify at 1.
    rewrite IH. destruct r; reflexivity.
Qed.

(** What is left after the removals: the pooled transactions that none of
    the removed ones takes out. *)
Lemma foldl_remove_lookup (txs : list Transaction)
    (pool : gmap string Transaction) (id : string) (t : Transaction) :
  foldl (fun p tx => TransactionPool.remove tx p) pool txs !! id = Some t
  <-> pool !! id = Some t
      /\ (forall tx, tx ∈ txs ->
            id <> tx_id tx
            /\ ~ (senderPublicKey t = senderPublicKey tx
                  /\ tx_nonce t <= tx_nonce tx)).
Proof.
  revert pool. induction txs as [| tx rest IH]; intros pool.
  - cbn [foldl]. split; [intros Hl | intros [Hl _]; exact Hl].
    split; [exact Hl |]. intros tx Htx. inversion Htx.
  - cbn [foldl]. rewrite IH. unfold TransactionPool.remove.
    rewrite map_lookup_filter_Some. cbn [fst snd]. split.
    + intros [[Hl Htx] Hrest]. split; [exact Hl |].
      intros tx' Hin. apply elem_of_cons in Hin as [-> | Hin];
        [exact Htx | exact (Hrest tx' Hin)].
    + intros [Hl Hall]. split; [split; [exact Hl |] |].
      * apply Hall. left.
      * intros tx' Hin. apply Hall. right. exact Hin.
Qed.

(** The loop over the payload of a deleted block hands every transaction to
    [add], logs each failure and goes on. *)
Lemma readmitLoop_spec (txs : list Transaction) (r : Runtime) :
  exists r',
    forOf txs
      (fun transaction =>
         tryCatch (Node.addToPool transaction)
           (fun err =>
              modify (emit (LogErr error err
                        "Failed to add transaction back to the pool")))) r
    = (r', Return tt)
    /\ transactionPool r' = fst (Node.readmitAll (transactionPool r) txs)
    /\ effects r'
       = effects r
         ++ ((fun e => LogErr error e
                         "Failed to add transaction back to the pool")
             <$> snd (Node.readmitAll (transactionPool r) txs))
    /\ chain r' = chain r
    /\ forger r' = forger r
    /\ synchronizerIsActive r' = synchronizerIsActive r
    /\ broadcastsActive r' = broadcastsActive r.
Proof.
  revert r. induction txs as [| tx rest IH]; intros r.
  - exists r. cbn. rewrite app_nil_r. repeat split; reflexivity.
  - cbn [forOf Node.readmitAll]. unfold mbind, SE_bind, tryCatch at 1.
    unfold Node.addToPool at 1.
    destruct (poolAdd (transactionPool r) tx) as [pool' res] eqn:Hadd.
    destruct res as [[] | e].
    + destruct (IH (withPool pool' r)) as (r' & Hrun & Hpool & Heff & Hrest).
      exists r'. rewrite Hrun. cbn in Hpool, Heff, Hrest.
      destruct (Node.readmitAll pool' rest) as [final errs].
      repeat split; try tauto.
    + unfold modify at 1.
      destruct (IH (emit (LogErr error e
                  "Failed to add transaction back to the pool")
                  (withPool pool' r))) as (r' & Hrun & Hpool & Heff & Hrest).
      exists r'. rewrite Hrun. cbn in Hpool, Heff, Hrest.
      destruct (Node.readmitAll pool' rest) as [final errs].
      cbn. rewrite Heff, <- app_assoc. repeat split; try tauto.
Qed.

End EventHandlerFacts.

(** C3: on a new block the handler returns normally after handing every
    transaction of the payload to the pool's [remove].  Afterwards the pool
    holds no transaction of the applied block, and no transaction of a
    sender of the block below that sender's account nonce: a pooled
    transaction of such a sender has a nonce above every nonce the sender
    has in the block, hence at least the account nonce the block leaves
    behind.  Nothing is added to the pool. *)
Theorem onNewBlock_evicts (env : Collaborators) (block : Block)
    (accounts : list Account) (r : Runtime) :
  exists r',
    Node.onNewBlock block accounts r = (r', Return tt)
    /\ (forall tx, tx ∈ payload block -> transactionPool r' !! tx_id tx = None)
    /\ (forall id t tx,
          transactionPool r' !! id = Some t -> tx ∈ payload block ->
          senderPublicKey t = senderPublicKey tx ->
          tx_nonce tx < tx_nonce t)
    /\ (forall accountNonce : string -> Z,
          (forall tx, tx ∈ payload block ->
             exists tx', tx' ∈ payload block
                         /\ senderPublicKey tx' = senderPublicKey tx
                         /\ accountNonce (senderPublicKey tx)
                            = tx_nonce tx' + 1) ->
          forall id t tx,
            transactionPool r' !! id = Some t -> tx ∈ payload block ->
            senderPublicKey t = senderPublicKey tx ->
            ~ (tx_nonce t < accountNonce (senderPublicKey t)))
    /\ (forall id t, transactionPool r' !! id = Some t ->
                     transactionPool r !! id = Some t).
Proof.
  assert (Hpool : exists r',
    Node.onNewBlock block accounts r = (r', Return tt)
    /\ transactionPool r'
       = foldl (fun p tx => TransactionPool.remove tx p) (transactionPool r)
               (payload block)).
  { unfold Node.onNewBlock. unfold mbind at 1, SE_bind at 1, modify at 1.
    unfold mbind at 1, SE_bind at 1.
    set (r1 := emit _ r).
    assert (Hloop :
      (if 0 <? Z.of_nat (length (payload block))
       then forOf (payload block)
              (fun transaction =>
                 modify (fun r =>
                   withPool (TransactionPool.remove transaction
                               (transactionPool r)) r))
       else skip) r1
      = (withPool (foldl (fun p tx => TransactionPool.remove tx p)
                         (transactionPool r1) (payload block)) r1,
         Return tt)).
    { destruct (payload block) as [| tx rest] eqn:Hp.
      - destruct r1; reflexivity.
      - replace (0 <? Z.of_nat (length (tx :: rest))) with true
          by (symmetry; apply Z.ltb_lt; simpl; lia).
        apply removeLoop_spec. }
    rewrite Hloop. unfold mbind, SE_bind, gets, modify, skip, mret, SE_ret.
    cbn [transactionPool synchronizerIsActive withPool].
    destruct (synchronizerIsActive r1); cbn; eexists; split; reflexivity. }
  destruct Hpool as (r' & Hrun & Hpool). exists r'.
  assert (Habove : forall id t tx,
    transactionPool r' !! id = Some t -> tx ∈ payload block ->
    senderPublicKey t = senderPublicKey tx -> tx_nonce tx < tx_nonce t).
  { intros id t tx Hl Htx Hsender. rewrite Hpool in Hl.
    apply foldl_remove_lookup in Hl as [_ Hall].
    destruct (Hall tx Htx) as [_ Hnot].
    destruct (Z.lt_ge_cases (tx_nonce tx) (tx_nonce t)) as [Hlt | Hge];
      [exact Hlt |]. exfalso. apply Hnot. split; [exact Hsender | exact Hge]. }
  split; [exact Hrun |]. split; [| split; [exact Habove | split]].
  - intros tx Htx.
    destruct (transactionPool r' !! tx_id tx) as [t |] eqn:Hl; [| reflexivity].
    exfalso. rewrite Hpool in Hl.
    apply foldl_remove_lookup in Hl as [_ Hall].
    destruct (Hall tx Htx) as [Hne _]. apply Hne. reflexivity.
  - intros accountNonce Hacc id t tx Hl Htx Hsender Hbelow.
    destruct (Hacc tx Htx) as (tx' & Htx' & Hs' & Hn).
    pose proof (Habove id t tx' Hl Htx' ltac:(congruence)) as Hlt.
    rewrite Hsender, Hn in Hbelow. lia.
  - intros id t Hl. rewrite Hpool in Hl.
    apply foldl_remove_lookup in Hl as [Hl _]. exact Hl.
Qed.

(** C3 at a block with one transaction of sender S at nonce 5, with S's
    transactions at nonces 5 and 6 in the pool: the one at nonce 5 goes, the
    one at nonce 6, the account nonce after the block, stays. *)
Lemma onNewBlock_evicts_witness :
  let stale := Sample.tx "a" "S" 5 in
  let next := Sample.tx "c" "S" 6 in
  let included := Sample.tx "b" "S" 5 in
  let r' :=
    fst (Node.onNewBlock (H := Sample.collaborators)
           (Sample.blockAt "b3" 3 [included]) []
           (Sample.runtime0 false true {["a" := stale; "c" := next]})) in
  transactionPool r' !! "a" = None
  /\ transactionPool r' !! "c" = Some next
  /\ forall id t,
       transactionPool r' !! id = Some t -> senderPublicKey t = "S" ->
       ~ (tx_nonce t < 6).
Proof.
  cbn zeta. split; [vm_compute; reflexivity |].
  split; [vm_compute; reflexivity |].
  intros id t Hl Hsender.
  destruct (onNewBlock_evicts Sample.collaborators
              (Sample.blockAt "b3" 3 [Sample.tx "b" "S" 5]) []
              (Sample.runtime0 false true
                 {["a" := Sample.tx "a" "S" 5; "c" := Sample.tx "c" "S" 6]}))
    as (r' & Hrun & _ & _ & Hacc & _).
  rewrite Hrun in Hl. cbn [fst] in Hl.
  pose proof (Hacc (fun _ => 6)) as Hsix. cbn beta in Hsix.
  apply (Hsix ltac:(intros tx Htx; apply list_elem_of_singleton in Htx;
                    subst tx; exists (Sample.tx "b" "S" 5);
                    split; [left | split; reflexivity])
              id t (Sample.tx "b" "S" 5) Hl ltac:(left) Hsender).
Defined.

(** C4: on a deleted block the handler hands every transaction of the
    payload to the pool's [add], in order; an [add] that throws is logged
    and does not stop the loop, and the handler itself returns normally. *)
Theorem onDeleteBlock_readmits (env : Collaborators) (block : Block)
    (accounts : list Account) (r : Runtime) :
  exists r',
    Node.onDeleteBlock block accounts r = (r', Return tt)
    /\ transactionPool r'
       = fst (Node.readmitAll (transactionPool r) (payload block))
    /\ effects r'
       = effects r
         ++ [Publish "app:block:delete" (encode block)
                     (encodeAccount <$> accounts)]
         ++ ((fun e => LogErr error e
                         "Failed to add transaction back to the pool")
             <$> snd (Node.readmitAll (transactionPool r) (payload block)))
         ++ [Log info "Deleted a block from the chain"]
    /\ chain r' = chain r.
Proof.
  unfold Node.onDeleteBlock. unfold mbind at 1, SE_bind at 1, modify at 1.
  unfold mbind at 1, SE_bind at 1.
  set (r1 := emit _ r).
  destruct (readmitLoop_spec (payload block) r1)
    as (r2 & Hrun & Hpool & Heff & Hchain & _).
  assert (Hloop :
    (if 0 <? Z.of_nat (length (payload block))
     then forOf (payload block)
            (fun transaction =>
               tryCatch (Node.addToPool transaction)
                 (fun err =>
                    modify (emit (LogErr error err
                              "Failed to add transaction back to the pool"))))
     else skip) r1 = (r2, Return tt)).
  { destruct (payload block) as [| tx rest] eqn:Hp.
    - cbn in Hrun |- *. exact Hrun.
    - replace (0 <? Z.of_nat (length (tx :: rest))) with true
        by (symmetry; apply Z.ltb_lt; simpl; lia).
      exact Hrun. }
  rewrite Hloop. unfold modify. eexists. split; [reflexivity |].
  cbn [transactionPool effects chain emit]. rewrite Hpool, Heff, Hchain.
  subst r1. cbn [transactionPool effects chain emit].
  rewrite <- !app_assoc. auto.
Qed.

(** C4 on a block of two transactions of which the first is already in the
    pool: the duplicate is logged and the second is admitted all the same. *)
Example onDeleteBlock_duplicate_then_fresh :
  let t1 := Sample.tx "a" "S" 5 in
  let t2 := Sample.tx "b" "S" 6 in
  let out :=
    Node.onDeleteBlock (H := Sample.collaborators)
      (Sample.blockAt "b3" 3 [t1; t2]) []
      (Sample.runtime0 false true {["a" := t1]}) in
  snd out = Return tt
  /\ transactionPool (fst out) !! "b" = Some t2
  /\ effects (fst out)
     = [Publish "app:block:delete" "b3" [];
        LogErr error (JsError "Transaction already in the pool")
          "Failed to add transaction back to the pool";
        Log info "Deleted a block from the chain"].
Proof. vm_compute. auto. Qed.

(** ** The transport handlers *)

(** C7: [handleEventPostTransaction] never throws.  Whatever
    [_receiveTransaction] does, the handler returns a value: the transaction
    id when it resolved, the error when it rejected (a full pool included). *)
Theorem handleEventPostTransaction_total (env : Collaborators)
    (data : Payload) (r : Runtime) :
  Transport.handleEventPostTransaction data r
  = (withPool
       (fst (receiveTransaction (p_transaction data) (transactionPool r))) r,
     Return
       match snd (receiveTransaction (p_transaction data) (transactionPool r))
       with
       | Return id => Transport.Accepted id
       | Throw err => Transport.Rejected err
       end).
Proof.
  unfold Transport.handleEventPostTransaction, tryCatch, mbind, SE_bind,
    Transport._receiveTransaction.
  destruct (receiveTransaction (p_transaction data) (transactionPool r))
    as [pool [id | err]]; reflexivity.
Qed.

(** The two outcomes of C7 at the sample receive path. *)
Example handleEventPostTransaction_examples :
  let r := Sample.runtime0 false true ∅ in
  snd (Transport.handleEventPostTransaction (H := Sample.collaborators)
         {| p_blockId := None; p_block := None;
            p_transaction := Some (Sample.tx "a" "S" 5);
            p_transactionIds := None; p_ids := None |} r)
  = Return (Transport.Accepted "a")
  /\ snd (Transport.handleEventPostTransaction (H := Sample.collaborators)
            Sample.emptyPayload r)
     = Return (Transport.Rejected (JsError "Invalid transaction body")).
Proof. split; reflexivity. Qed.




(** A malformed block posted while the synchronizer is active: dropped with
    a debug line, the peer is not penalized. *)
Example postBlock_malformed_dropped_while_syncing :
  Node.onNetworkEvent (H := Sample.collaborators) "postBlock"
    Sample.emptyPayload "peer-id" (Sample.runtime0 true true ∅)
  = (emit (Log debug
             "Client is syncing. Can't process new block at the moment.")
          (Sample.runtime0 true true ∅),
     Return tt).
Proof. reflexivity. Qed.

Section BlockStoreFacts.

Lemma getBlocksByHeightBetween_elem (c : Chain) (lo hi : Z) (b : Block) :
  b ∈ Transport.getBlocksByHeightBetween c lo hi
  <-> b ∈ blocks c /\ lo <= height (header b) <= hi.
Proof.
  unfold Transport.getBlocksByHeightBetween.
  rewrite !list_elem_of_In, filter_In, andb_true_iff, !Z.leb_le. tauto.
Qed.

(** Filtering keeps the heights pairwise distinct. *)
Lemma filter_heights_NoDup (P : Block -> bool) (l : list Block) :
  NoDup ((fun b => height (header b)) <$> l) ->
  NoDup ((fun b => height (header b)) <$> List.filter P l).
Proof.
  induction l as [| b rest IH]; intros Hnd; [exact Hnd |].
  cbn [fmap list_fmap] in Hnd. apply NoDup_cons in Hnd as [Hb Hnd].
  cbn [List.filter]. destruct (P b); [| exact (IH Hnd)].
  cbn [fmap list_fmap]. apply NoDup_cons. split; [| exact (IH Hnd)].
  intros Hin. apply Hb. apply list_elem_of_fmap in Hin as (b' & Heq & Hin).
  apply list_elem_of_fmap. exists b'. split; [exact Heq |].
  apply list_elem_of_In. apply list_elem_of_In, filter_In in Hin. tauto.
Qed.

(** Pairwise distinct integers out of [n] consecutive ones are at most [n]. *)
Lemma distinct_in_range_length (l : list Z) (lo : Z) (n : nat) :
  NoDup l -> (forall x, x ∈ l -> lo <= x < lo + Z.of_nat n) ->
  (length l <= n)%nat.
Proof.
  intros Hnd Hrange.
  assert (Hsub : l ⊆+ seqZ lo (Z.of_nat n)).
  { apply NoDup_submseteq; [exact Hnd |]. intros x Hx.
    apply elem_of_seqZ. exact (Hrange x Hx). }
  apply submseteq_length in Hsub. rewrite length_seqZ in Hsub. lia.
Qed.

End BlockStoreFacts.

(** C5: given the id of a stored block of height [h], [getBlocksFromId]
    returns the stored blocks of heights [h + 1] to [h + 34], encoded, and
    nothing else; as no two stored blocks share a height these are at most
    34 blocks.  The node state is left as it was. *)
Theorem getBlocksFromId_next_34 (env : Collaborators) (data : Payload)
    (peerId : string) (r : Runtime) (id : string) (parent : BlockHeader) :
  validate getBlocksFromIdRequest data = [] ->
  p_blockId data = Some id ->
  Transport.getBlockHeaderByID (chain r) id = Some parent ->
  NoDup ((fun b => height (header b)) <$> blocks (chain r)) ->
  exists bs : list Block,
    Node.getBlocksFromId data peerId r = (r, Return (encode <$> bs))
    /\ (length bs <= 34)%nat
    /\ (forall b, b ∈ bs <->
                  b ∈ blocks (chain r)
                  /\ height parent + 1 <= height (header b) <= height parent + 34).
Proof.
  intros Hv Hid Hparent Hnd.
  exists (Transport.getBlocksByHeightBetween (chain r) (height parent + 1)
            (height parent + 34)).
  split; [| split].
  - unfold Node.getBlocksFromId, Transport.handleRPCGetBlocksFromId.
    rewrite Hv. unfold mbind at 1, SE_bind, gets. rewrite Hid. cbn.
    rewrite Hparent. reflexivity.
  - rewrite <- (length_fmap (fun b => height (header b))).
    apply (distinct_in_range_length _ (height parent + 1) 34).
    + apply filter_heights_NoDup. exact Hnd.
    + intros x Hx. apply list_elem_of_fmap in Hx as (b & -> & Hb).
      apply getBlocksByHeightBetween_elem in Hb. lia.
  - intros b. apply getBlocksByHeightBetween_elem.
Qed.

(** C5 at the sample chain: after block [b1] comes block [b2] alone. *)
Lemma getBlocksFromId_next_34_witness :
  exists bs : list Block,
    Node.getBlocksFromId (H := Sample.collaborators)
      {| p_blockId := Some "b1"; p_block := None; p_transaction := None;
         p_transactionIds := None; p_ids := None |} "peer-id" (Sample.runtime0 false true ∅)
    = (Sample.runtime0 false true ∅,
       Return (encode (Collaborators := Sample.collaborators) <$> bs))
    /\ (length bs <= 34)%nat
    /\ (forall b, b ∈ bs <->
                  b ∈ blocks Sample.chain0
                  /\ 1 + 1 <= height (header b) <= 1 + 34).
Proof.
  apply (getBlocksFromId_next_34 Sample.collaborators
           {| p_blockId := Some "b1"; p_block := None; p_transaction := None;
              p_transactionIds := None; p_ids := None |} "peer-id"
           (Sample.runtime0 false true ∅) "b1"
           {| b_id := "b1"; b_version := 2; height := 1;
              maxHeightPrevoted := 0 |}).
  - reflexivity.
  - reflexivity.
  - reflexivity.
  - apply (bool_decide_unpack _). vm_compute. exact I.
Defined.

(** ** Bootstrap *)

Section BootstrapFacts.
Context `{Collaborators}.
Import Node.

Lemma find_by_id_Some (registered : list BaseModule) (id : Z) (rm : BaseModule) :
  List.find (fun rm => m_id rm =? id) registered = Some rm ->
  id ∈ m_id <$> registered.
Proof.
  intros Hfind. apply find_some in Hfind as [Hin Heq].
  apply Z.eqb_eq in Heq. subst id.
  apply list_elem_of_fmap_2, list_elem_of_In. exact Hin.
Qed.

Lemma find_by_id_None (registered : list BaseModule) (id : Z) :
  List.find (fun rm => m_id rm =? id) registered = None ->
  id ∉ m_id <$> registered.
Proof.
  intros Hfind Hin. apply list_elem_of_fmap in Hin as (rm & -> & Hin).
  apply list_elem_of_In in Hin.
  pose proof (find_none _ _ Hfind rm Hin) as Hne. cbn in Hne.
  rewrite Z.eqb_refl in Hne. discriminate.
Qed.

(** The registration loop, started with some modules already registered:
    it completes when all ids are distinct and throws otherwise; the
    objects created later are out of its reach. *)
Lemma registerLoop_spec (gc : GenesisConfig)
    (customs : list (GenesisConfig -> BaseModule)) (n : Node) :
  let mods := (fun C => C gc) <$> customs in
  exists n' res,
    forOf customs (registerCustomModule gc) n = (n', res)
    /\ _runtime n' = _runtime n
    /\ _options n' = _options n
    /\ _genesisBlockJSON n' = _genesisBlockJSON n
    /\ (NoDup (m_id <$> (_registeredModules n ++ mods)) ->
        res = Return tt
        /\ _registeredModules n' = _registeredModules n ++ mods
        /\ _registeredAccountSchemas n'
           = schemasOf (_registeredAccountSchemas n) mods)
    /\ (~ NoDup (m_id <$> (_registeredModules n ++ mods)) ->
        NoDup (m_id <$> _registeredModules n) ->
        exists id, res = Throw (CustomModuleExists id)
                   /\ id ∈ m_id <$> mods).
Proof.
  revert n. induction customs as [| C rest IH]; intros n mods.
  - exists n, (Return tt). subst mods. cbn. rewrite app_nil_r.
    repeat split; try reflexivity. intros Hdup Hnd. contradiction.
  - subst mods. cbn [fmap list_fmap forOf].
    unfold mbind at 1, SE_bind at 1. unfold registerCustomModule at 1.
    unfold mbind at 1, SE_bind at 1, gets at 1.
    destruct (List.find (fun rm => m_id rm =? m_id (C gc))
                        (_registeredModules n)) as [rm |] eqn:Hfind.
    + apply find_by_id_Some in Hfind.
      exists n, (Throw (CustomModuleExists (m_id (C gc)))).
      do 4 (split; [reflexivity |]). split.
      * intros Hnd. exfalso. rewrite fmap_app in Hnd.
        apply NoDup_app in Hnd as (_ & Hd & _). apply (Hd _ Hfind). left.
      * intros _ _. exists (m_id (C gc)). split; [reflexivity | left].
    + apply find_by_id_None in Hfind.
      set (n1 := match accountSchema (C gc) with
                 | Some s =>
                     setRegisteredAccountSchema (m_name (C gc))
                       {| schema := s; fieldNumber := m_id (C gc) |} n
                 | None => n
                 end).
      assert (Hstep :
        (match accountSchema (C gc) with
         | Some s =>
             modify (setRegisteredAccountSchema (m_name (C gc))
                       {| schema := s; fieldNumber := m_id (C gc) |})
         | None => skip
         end ;; modify (pushRegisteredModule (C gc))) n
        = (pushRegisteredModule (C gc) n1, Return tt)).
      { subst n1. destruct (accountSchema (C gc)); reflexivity. }
      rewrite Hstep.
      destruct (IH (pushRegisteredModule (C gc) n1))
        as (n' & res & Hrun & Hrt & Hopt & Hjson & Hok & Hdup).
      exists n', res. split; [exact Hrun |].
      assert (Hreg : _registeredModules (pushRegisteredModule (C gc) n1)
                     = _registeredModules n ++ [C gc]).
      { subst n1. destruct (accountSchema (C gc)); reflexivity. }
      assert (Hsch : schemasOf (_registeredAccountSchemas
                                  (pushRegisteredModule (C gc) n1))
                               ((fun C => C gc) <$> rest)
                     = schemasOf (_registeredAccountSchemas n)
                                 (C gc :: ((fun C => C gc) <$> rest))).
      { subst n1. cbn [schemasOf foldl].
        destruct (accountSchema (C gc)); reflexivity. }
      rewrite Hreg, <- app_assoc in Hok, Hdup. cbn [app] in Hok, Hdup.
      rewrite Hsch in Hok.
      split; [rewrite Hrt; subst n1; destruct (accountSchema (C gc));
              reflexivity |].
      split; [rewrite Hopt; subst n1; destruct (accountSchema (C gc));
              reflexivity |].
      split; [rewrite Hjson; subst n1; destruct (accountSchema (C gc));
              reflexivity |].
      split; [exact Hok |].
      intros Hbad Hnd. destruct (Hdup Hbad) as (id & Hres & Hid).
      * rewrite fmap_app. apply NoDup_app. split; [exact Hnd |].
        split; [| apply NoDup_singleton].
        intros x Hx Hx'. apply list_elem_of_singleton in Hx'. subst x.
        exact (Hfind Hx).
      * exists id. split; [exact Hres | right; exact Hid].
Qed.

(** [bootstrap], step by step, after the registration loop. *)
Lemma bootstrap_cases (n n1 : Node) (json : string)
    (res1 : completion Error unit) :
  _genesisBlockJSON n = Some json ->
  forOf (_customModules n) (registerCustomModule (genesisConfig (_options n))) n
  = (n1, res1) ->
  bootstrap n
  = match res1 with
    | Throw e =>
        (logNode (LogErr fatal e "Failed to initialization node") n1, Throw e)
    | Return _ =>
        match readGenesisBlockJSON json (_registeredAccountSchemas n1) with
        | Throw e =>
            (logNode (LogErr fatal e "Failed to initialization node") n1,
             Throw e)
        | Return g =>
            match checkWaitThreshold (_options n) with
            | Throw e =>
                (logNode (LogErr fatal e "Failed to initialization node")
                         (setGenesisBlock g n1), Throw e)
            | Return _ =>
                match initAndLaunch g (setGenesisBlock g n1) with
                | (n3, Return _) =>
                    (logNode (Log info "Node ready and launched") n3, Return tt)
                | (n3, Throw e) =>
                    (logNode (LogErr fatal e "Failed to initialization node")
                             n3, Throw e)
                end
            end
        end
    end.
Proof.
  intros Hjson Hloop. unfold bootstrap, tryCatch.
  unfold mbind at 1, SE_bind at 1, gets at 1. rewrite Hjson.
  unfold mbind at 1, SE_bind at 1, gets at 1.
  unfold mbind at 1, SE_bind at 1, gets at 1.
  unfold mbind at 1, SE_bind at 1. rewrite Hloop.
  destruct res1 as [[] | e]; [| reflexivity].
  unfold mbind at 1, SE_bind at 1, gets at 1.
  unfold mbind at 1, SE_bind at 1, liftC at 1.
  destruct (readGenesisBlockJSON json (_registeredAccountSchemas n1))
    as [g | e]; [| reflexivity].
  unfold mbind at 1, SE_bind at 1, modify at 1.
  unfold mbind at 1, SE_bind at 1, liftC at 1.
  destruct (checkWaitThreshold (_options n)) as [[] | e]; [| reflexivity].
  unfold mbind at 1, SE_bind at 1.
  destruct (initAndLaunch g (setGenesisBlock g n1)) as [n3 [[] | e]];
    reflexivity.
Qed.

(** A module with a schema whose name no other module carries finds its
    schema under its name, with its id as field number. *)
Lemma schemasOf_lookup (acc : gmap string AccountSchema)
    (mods : list BaseModule) (m : BaseModule) (s : string) :
  accountSchema m = Some s ->
  (forall m', m' ∈ mods -> m_name m' = m_name m -> m' = m) ->
  m ∈ mods
  \/ acc !! m_name m = Some {| schema := s; fieldNumber := m_id m |} ->
  schemasOf acc mods !! m_name m
  = Some {| schema := s; fieldNumber := m_id m |}.
Proof.
  intros Hs. revert acc. induction mods as [| m0 rest IH]; intros acc Huniq Hin.
  - destruct Hin as [Hin | Hacc]; [inversion Hin | exact Hacc].
  - cbn [schemasOf foldl]. apply IH.
    + intros m' Hm'. apply Huniq. right. exact Hm'.
    + destruct (decide (m_name m0 = m_name m)) as [Hname | Hname].
      * right. rewrite (Huniq m0 (list_elem_of_here _ _) Hname), Hs.
        apply lookup_insert_eq.
      * destruct Hin as [Hin | Hacc].
        -- apply elem_of_cons in Hin as [-> | Hin];
             [contradiction | left; exact Hin].
        -- right. destruct (accountSchema m0);
             [rewrite lookup_insert_ne by exact Hname |]; exact Hacc.
Qed.

End BootstrapFacts.

(** C2: with [forging.waitThreshold >= genesisConfig.blockTime] bootstrap
    throws and the node does not start ([_initModules] has not run, nothing
    is launched); when the steps before the check succeed, the error is the
    one of the check.  With [waitThreshold < blockTime] the check passes,
    and bootstrap goes on to create and launch the modules. *)
Theorem bootstrap_waitThreshold (env : Collaborators) (n : Node.Node) :
  let options := Node._options n in
  let wt := waitThreshold (forging options) in
  let bt := g_blockTime (genesisConfig options) in
  let loop :=
    forOf (Node._customModules n)
          (Node.registerCustomModule (genesisConfig options)) n in
  (wt >= bt ->
   exists n' e,
     Node.bootstrap n = (n', Throw e)
     /\ Node._runtime n' = Node._runtime n
     /\ (forall json g,
           Node._genesisBlockJSON n = Some json ->
           snd loop = Return tt ->
           readGenesisBlockJSON json (Node._registeredAccountSchemas (fst loop))
           = Return g ->
           e = WaitThresholdTooLarge wt bt))
  /\ (wt < bt ->
      Node.checkWaitThreshold options = Return tt
      /\ (forall json g,
            Node._genesisBlockJSON n = Some json ->
            snd loop = Return tt ->
            readGenesisBlockJSON json
              (Node._registeredAccountSchemas (fst loop)) = Return g ->
            Node.bootstrap n
            = match Node.initAndLaunch g (Node.setGenesisBlock g (fst loop))
              with
              | (n3, Return _) =>
                  (Node.logNode (Log info "Node ready and launched") n3,
                   Return tt)
              | (n3, Throw e) =>
                  (Node.logNode
                     (LogErr fatal e "Failed to initialization node") n3,
                   Throw e)
              end)).
Proof.
  intros options wt bt loop.
  destruct (registerLoop_spec (genesisConfig options) (Node._customModules n) n)
    as (n1 & res1 & Hloop & Hrt & _).
  fold loop in Hloop.
  split.
  - intros Hge.
    assert (Hcheck : Node.checkWaitThreshold options
                     = Throw (WaitThresholdTooLarge wt bt)).
    { unfold Node.checkWaitThreshold. fold wt bt.
      replace (wt >=? bt) with true by (symmetry; apply Z.geb_le; lia).
      reflexivity. }
    destruct (Node._genesisBlockJSON n) as [json |] eqn:Hjson.
    + rewrite (bootstrap_cases n n1 json res1 Hjson Hloop).
      fold options. rewrite Hcheck.
      destruct res1 as [[] | e1].
      * destruct (readGenesisBlockJSON json (Node._registeredAccountSchemas n1))
          as [g | e2] eqn:Hread.
        -- eexists _, _. split; [reflexivity |]. split; [exact Hrt |].
           reflexivity.
        -- eexists _, _. split; [reflexivity |]. split; [exact Hrt |].
           intros json' g' Hj _ Hread'. rewrite Hloop in Hread'.
           injection Hj as <-. cbn [fst] in Hread'. congruence.
      * eexists _, _. split; [reflexivity |]. split; [exact Hrt |].
        intros json' g' _ Hres. rewrite Hloop in Hres. discriminate Hres.
    + eexists _, _. split; [| split].
      * unfold Node.bootstrap, tryCatch. unfold mbind at 1, SE_bind at 1, gets.
        rewrite Hjson. reflexivity.
      * reflexivity.
      * intros json g Hj. discriminate Hj.
  - intros Hlt.
    assert (Hcheck : Node.checkWaitThreshold options = Return tt).
    { unfold Node.checkWaitThreshold. fold wt bt.
      replace (wt >=? bt) with false
        by (symmetry; apply not_true_is_false; rewrite Z.geb_le; lia).
      reflexivity. }
    split; [exact Hcheck |].
    intros json g Hjson Hres Hread. rewrite Hloop in Hres, Hread |- *.
    cbn [fst snd] in Hres, Hread |- *. subst res1.
    rewrite (bootstrap_cases n n1 json (Return tt) Hjson Hloop).
    fold options. rewrite Hread, Hcheck. reflexivity.
Qed.

(** C2 at a node configured with [waitThreshold = blockTime = 10]. *)
Lemma bootstrap_waitThreshold_witness :
  exists n' e,
    Node.bootstrap (H := Sample.collaborators)
      (Node.new (Some "{}") [] (Sample.options 10 10)) = (n', Throw e)
    /\ Node._runtime n' = None
    /\ (forall json g,
          Some "{}" = Some json ->
          (Return tt : completion Error unit) = Return tt ->
          readGenesisBlockJSON (Collaborators := Sample.collaborators) json ∅
          = Return g ->
          e = WaitThresholdTooLarge 10 10).
Proof.
  apply (proj1 (bootstrap_waitThreshold Sample.collaborators
                  (Node.new (Some "{}") [] (Sample.options 10 10)))).
  simpl. lia.
Defined.

(** The two sides of the check, run on the sample collaborators. *)
Example bootstrap_waitThreshold_examples :
  snd (Node.bootstrap (H := Sample.collaborators)
         (Node.new (Some "{}") [] (Sample.options 10 10)))
  = Throw (WaitThresholdTooLarge 10 10)
  /\ snd (Node.bootstrap (H := Sample.collaborators)
            (Node.new (Some "{}") [] (Sample.options 12 10)))
     = Throw (WaitThresholdTooLarge 12 10)
  /\ snd (Node.bootstrap (H := Sample.collaborators)
            (Node.new (Some "{}") [] (Sample.options 9 10)))
     = Return tt.
Proof. repeat split. Qed.

(** C8, as stated, fails: two modules with distinct ids and one name.  Both
    are registered, and the schema of the first is gone: under the shared
    name sits the schema of the second, with the second id. *)
Lemma bootstrap_same_name_overwrites_schema :
  let first := {| m_id := 1000; m_name := "token"; accountSchema := Some "A" |} in
  let second := {| m_id := 1001; m_name := "token"; accountSchema := Some "B" |} in
  let out :=
    Node.bootstrap (H := Sample.collaborators)
      (Node.new (Some "{}") [fun _ => first; fun _ => second]
                (Sample.options 9 10)) in
  snd out = Return tt
  /\ Node._registeredModules (fst out) = [first; second]
  /\ Node._registeredAccountSchemas (fst out) !! m_name first
     = Some {| schema := "B"; fieldNumber := 1001 |}
  /\ Node._registeredAccountSchemas (fst out) !! m_name first
     <> Some {| schema := "A"; fieldNumber := m_id first |}.
Proof.
  cbn zeta. split; [reflexivity |]. split; [reflexivity |].
  assert (Hlook :
    Node._registeredAccountSchemas
      (fst (Node.bootstrap (H := Sample.collaborators)
              (Node.new (Some "{}")
                 [fun _ => {| m_id := 1000; m_name := "token";
                              accountSchema := Some "A" |};
                  fun _ => {| m_id := 1001; m_name := "token";
                              accountSchema := Some "B" |}]
                 (Sample.options 9 10)))) !! "token"
    = Some {| schema := "B"; fieldNumber := 1001 |})
    by (vm_compute; reflexivity).
  split; [exact Hlook |]. cbn [m_name m_id]. rewrite Hlook. discriminate.
Qed.

(** C8 (amended): when two of the supplied modules have the same id,
    bootstrap throws "already exists" before the chain is created.
    Otherwise the registered modules are the supplied ones, each once and in
    order, and every module that has an account schema and shares its name
    with no other supplied module has that schema registered under its name
    with its id as [fieldNumber]. *)
Theorem bootstrap_registers_custom_modules (env : Collaborators)
    (json : string) (customModules : list (GenesisConfig -> BaseModule))
    (options : NodeOptions) :
  let mods := (fun C => C (genesisConfig options)) <$> customModules in
  exists n' res,
    Node.bootstrap (Node.new (Some json) customModules options) = (n', res)
    /\ (~ NoDup (m_id <$> mods) ->
        (exists id, res = Throw (CustomModuleExists id) /\ id ∈ m_id <$> mods)
        /\ Node._runtime n' = None)
    /\ (NoDup (m_id <$> mods) ->
        Node._registeredModules n' = mods
        /\ Node._registeredAccountSchemas n' = Node.schemasOf ∅ mods
        /\ (forall m s,
              m ∈ mods -> accountSchema m = Some s ->
              (forall m', m' ∈ mods -> m_name m' = m_name m -> m' = m) ->
              Node._registeredAccountSchemas n' !! m_name m
              = Some {| schema := s; fieldNumber := m_id m |})).
Proof.
  intros mods. set (n := Node.new (Some json) customModules options).
  destruct (registerLoop_spec (genesisConfig options) customModules n)
    as (n1 & res1 & Hloop & Hrt & _ & _ & Hok & Hdup).
  fold mods in Hok, Hdup. cbn [Node._registeredModules n Node.new app] in Hok, Hdup.
  cbn [Node._registeredAccountSchemas n Node.new] in Hok.
  cbn [Node._runtime n Node.new] in Hrt.
  pose proof (bootstrap_cases n n1 json res1 eq_refl Hloop) as Hboot.
  destruct (Node.bootstrap n) as [n' res] eqn:Hrun. exists n', res.
  split; [reflexivity |]. split.
  - intros Hbad. destruct (Hdup Hbad (NoDup_nil_2)) as (id & -> & Hid).
    injection Hboot as -> ->. split; [exists id; auto | exact Hrt].
  - intros Hnd. destruct (Hok Hnd) as (-> & Hreg & Hsch).
    assert (Hkeep : Node._registeredModules n' = Node._registeredModules n1
                    /\ Node._registeredAccountSchemas n'
                       = Node._registeredAccountSchemas n1).
    { destruct (readGenesisBlockJSON json (Node._registeredAccountSchemas n1))
        as [g | e]; [| injection Hboot as -> _; auto].
      destruct (Node.checkWaitThreshold (Node._options n)) as [[] | e];
        [| injection Hboot as -> _; auto].
      unfold Node.initAndLaunch in Hboot.
      destruct (launch _ g _) as [r [[] | e]]; injection Hboot as -> _; auto. }
    destruct Hkeep as [Hkm Hks]. rewrite Hkm, Hks, Hreg, Hsch.
    split; [reflexivity |]. split; [reflexivity |].
    intros m s Hm Hs Huniq. apply schemasOf_lookup; auto.
Qed.

(** C8 (amended) at two modules with the same id. *)
Lemma bootstrap_registers_custom_modules_witness :
  let dup := {| m_id := 1000; m_name := "token"; accountSchema := None |} in
  exists n' res,
    Node.bootstrap (H := Sample.collaborators)
      (Node.new (Some "{}") [fun _ => dup; fun _ => dup] (Sample.options 9 10))
    = (n', res)
    /\ (exists id, res = Throw (CustomModuleExists id) /\ id ∈ [1000; 1000])
    /\ Node._runtime n' = None.
Proof.
  intros dup.
  destruct (bootstrap_registers_custom_modules Sample.collaborators "{}"
              [fun _ => dup; fun _ => dup] (Sample.options 9 10))
    as (n' & res & Hrun & Hdup & _).
  exists n', res. split; [exact Hrun |]. apply Hdup.
  intros Hnd. apply NoDup_cons in Hnd as [Hnotin _]. apply Hnotin. left.
Defined.

(** ** [getValidators] *)

Section GetValidatorsFacts.
Import Node.

Lemma atModLength_nonneg {A} (arr : list A) (i : Z) :
  0 <= i -> 0 < Z.of_nat (length arr) ->
  exists a,
    atModLength arr i = Some a
    /\ arr !! Z.to_nat (i mod Z.of_nat (length arr)) = Some a.
Proof.
  intros Hi Hlen. unfold atModLength, jsRem.
  replace (Z.of_nat (length arr) =? 0) with false
    by (symmetry; apply Z.eqb_neq; lia).
  rewrite Z.rem_mod_nonneg by lia.
  pose proof (Z.mod_pos_bound i (Z.of_nat (length arr)) Hlen) as Hb.
  replace (i mod Z.of_nat (length arr) <? 0) with false
    by (symmetry; apply Z.ltb_ge; lia).
  destruct (arr !! Z.to_nat (i mod Z.of_nat (length arr))) as [a |] eqn:Hl.
  - exists a. auto.
  - apply lookup_ge_None in Hl. lia.
Qed.

(** The loop appends one entry per iteration: the address at the running
    index, and forging times [blockTime] apart. *)
Lemma getValidatorsLoop_spec (left : nat) (addrs : list string) (bt : Z)
    (i t : Z) (acc : list ForgerInfo) :
  0 <= i -> 0 < Z.of_nat (length addrs) ->
  exists infos,
    getValidatorsLoop left addrs bt i t acc = Return (acc ++ infos)
    /\ length infos = left
    /\ (forall k : nat, (k < left)%nat ->
          exists a,
            addrs !! Z.to_nat ((i + Z.of_nat k) mod Z.of_nat (length addrs))
            = Some a
            /\ infos !! k
               = Some {| fi_address := a;
                         nextForgingTime := t + Z.of_nat k * bt |}).
Proof.
  revert i t acc. induction left as [| left IH]; intros i t acc Hi Hlen.
  - exists []. cbn. rewrite app_nil_r. repeat split; try reflexivity.
    intros k Hk. lia.
  - cbn [getValidatorsLoop].
    destruct (atModLength_nonneg addrs i Hi Hlen) as (a & -> & Ha).
    destruct (IH (i + 1) (t + bt)
                 (acc ++ [{| fi_address := a; nextForgingTime := t |}])
                 ltac:(lia) Hlen) as (infos & Hrun & Hlength & Hentries).
    exists ({| fi_address := a; nextForgingTime := t |} :: infos).
    split; [rewrite Hrun, <- app_assoc; reflexivity |].
    split; [cbn; rewrite Hlength; reflexivity |].
    intros [| k] Hk.
    + exists a. rewrite Z.add_0_r. split; [exact Ha |].
      cbn. rewrite Z.add_0_r. reflexivity.
    + destruct (Hentries k ltac:(lia)) as (a' & Ha' & Hk').
      exists a'.
      replace (i + Z.of_nat (S k)) with (i + 1 + Z.of_nat k) by lia.
      replace (t + Z.of_nat (S k) * bt) with (t + bt + Z.of_nat k * bt) by lia.
      split; [exact Ha' | exact Hk'].
Qed.

End GetValidatorsFacts.

(** The action answers only inside its domain: before the first slot the
    index is negative and the address lookup fails with a [TypeError]; with
    a validator list shorter than [numberOfValidators] the index wraps at
    the length of the list, so in slot 2 of a round of three over two
    validators the first entry is the validator at index 0, not one at
    index [slot mod numberOfValidators = 2]. *)
Lemma getValidators_outside_domain :
  Node.getValidators Sample.chain0 (-5)
  = Throw (TypeError "Cannot read property 'toString' of undefined")
  /\ Node.getValidators Sample.chainShort 25
     = Return [ {| Node.fi_address := "v0"; Node.nextForgingTime := 20 |};
                {| Node.fi_address := "v1"; Node.nextForgingTime := 30 |};
                {| Node.fi_address := "v0"; Node.nextForgingTime := 40 |} ]
  /\ getSlotNumber (slots Sample.chainShort) 25
       mod numberOfValidators Sample.chainShort = 2
  /\ validators Sample.chainShort !! 2%nat = None.
Proof. repeat split. Qed.

(** C9 (amended): for a current slot [slot >= 0], a positive
    [numberOfValidators] and a non-empty validator list, [getValidators]
    returns exactly [numberOfValidators] entries; entry [k] carries the
    forging time [getSlotTime slot + k * blockTime] and the address of the
    validator at index [(slot mod numberOfValidators + k)] modulo the length
    of the validator list.  When the list has [numberOfValidators] entries
    the first entry is the validator at index [slot mod numberOfValidators],
    at the slot's start time; with a positive block time the forging times
    increase strictly. *)
Theorem getValidators_schedule (c : Chain) (now : Z) :
  let slot := getSlotNumber (slots c) now in
  let N := numberOfValidators c in
  let L := Z.of_nat (length (validators c)) in
  let bt := blockTime (slots c) in
  0 <= slot -> 0 < N -> 0 < L ->
  exists infos,
    Node.getValidators c now = Return infos
    /\ Z.of_nat (length infos) = N
    /\ (forall k : nat, Z.of_nat k < N ->
          exists v,
            validators c !! Z.to_nat ((slot mod N + Z.of_nat k) mod L) = Some v
            /\ infos !! k
               = Some {| Node.fi_address := v_address v;
                         Node.nextForgingTime :=
                           getSlotTime (slots c) slot + Z.of_nat k * bt |})
    /\ (L = N ->
        exists v,
          validators c !! Z.to_nat (slot mod N) = Some v
          /\ infos !! 0%nat
             = Some {| Node.fi_address := v_address v;
                       Node.nextForgingTime := getSlotTime (slots c) slot |})
    /\ (0 < bt ->
        forall (j k : nat) fj fk,
          (j < k)%nat -> infos !! j = Some fj -> infos !! k = Some fk ->
          Node.nextForgingTime fj < Node.nextForgingTime fk).
Proof.
  intros slot N L bt Hslot HN HL.
  assert (Hrem : Node.jsRem slot N = Some (slot mod N)).
  { unfold Node.jsRem. replace (N =? 0) with false
      by (symmetry; apply Z.eqb_neq; lia).
    rewrite Z.rem_mod_nonneg by lia. reflexivity. }
  pose proof (Z.mod_pos_bound slot N HN) as Hmod.
  destruct (getValidatorsLoop_spec (Z.to_nat N) (v_address <$> validators c) bt
              (slot mod N) (getSlotTime (slots c) slot) [])
    as (infos & Hrun & Hlength & Hentries).
  { lia. }
  { rewrite length_fmap. exact HL. }
  rewrite length_fmap in Hentries. fold L in Hentries.
  assert (Hall : forall k : nat, Z.of_nat k < N ->
    exists v,
      validators c !! Z.to_nat ((slot mod N + Z.of_nat k) mod L) = Some v
      /\ infos !! k
         = Some {| Node.fi_address := v_address v;
                   Node.nextForgingTime :=
                     getSlotTime (slots c) slot + Z.of_nat k * bt |}).
  { intros k Hk. destruct (Hentries k ltac:(lia)) as (a & Ha & Hk').
    rewrite list_lookup_fmap in Ha.
    destruct (validators c !! Z.to_nat ((slot mod N + Z.of_nat k) mod L))
      as [v |]; [| discriminate Ha].
    exists v. injection Ha as <-. auto. }
  exists infos. split; [| split; [| split; [| split]]].
  - unfold Node.getValidators. fold slot N. rewrite Hrem. exact Hrun.
  - lia.
  - exact Hall.
  - intros Heq. destruct (Hall 0%nat ltac:(lia)) as (v & Hv & H0).
    exists v. rewrite Heq, Z.add_0_r, Z.mod_mod in Hv by lia.
    rewrite Z.mul_0_l, Z.add_0_r in H0. auto.
  - intros Hbt j k fj fk Hjk Hj Hk.
    assert (Hkn : Z.of_nat k < N).
    { apply lookup_lt_Some in Hk. lia. }
    destruct (Hall j ltac:(lia)) as (vj & _ & Hj').
    destruct (Hall k Hkn) as (vk & _ & Hk').
    rewrite Hj in Hj'. rewrite Hk in Hk'.
    injection Hj' as ->. injection Hk' as ->. cbn. nia.
Qed.

(** C9 (amended) at the sample chain of three validators, at time 47
    (slot 4). *)
Lemma getValidators_schedule_witness :
  Node.getValidators Sample.chain0 47
  = Return [ {| Node.fi_address := "v1"; Node.nextForgingTime := 40 |};
             {| Node.fi_address := "v2"; Node.nextForgingTime := 50 |};
             {| Node.fi_address := "v0"; Node.nextForgingTime := 60 |} ]
  /\ exists infos,
       Node.getValidators Sample.chain0 47 = Return infos
       /\ Z.of_nat (length infos) = 3.
Proof.
  split; [reflexivity |].
  destruct (getValidators_schedule Sample.chain0 47)
    as (infos & Hrun & Hlen & _).
  - vm_compute. discriminate.
  - reflexivity.
  - reflexivity.
  - exists infos. split; [exact Hrun | exact Hlen].
Defined.

(** ** The lookups by id *)

Section LookupFacts.
Context {A : Type}.
Variable get : string -> completion Error A.

(** The loop of both lookups collects results until the first failure. *)
Lemma collectLoop_all (ids : list string) (xs acc : list A) :
  Forall2 (fun id x => get id = Return x) ids xs ->
  forOf ids (fun id => x ← liftC (get id) ;
                       modify (fun acc : list A => acc ++ [x])) acc
  = (acc ++ xs, Return tt).
Proof.
  intros Hall. revert acc.
  induction Hall as [| id x ids xs Hx _ IH]; intros acc.
  - cbn. rewrite app_nil_r. reflexivity.
  - cbn [forOf]. unfold mbind at 1, SE_bind at 1.
    unfold mbind at 1, SE_bind at 1, liftC at 1. rewrite Hx.
    unfold modify at 1. rewrite IH, <- app_assoc. reflexivity.
Qed.

Lemma collectLoop_stops (pre post : list string) (id : string) (e : Error)
    (xs acc : list A) :
  Forall2 (fun id x => get id = Return x) pre xs ->
  get id = Throw e ->
  forOf (pre ++ id :: post)
        (fun id => x ← liftC (get id) ;
                   modify (fun acc : list A => acc ++ [x])) acc
  = (acc ++ xs, Throw e).
Proof.
  intros Hall He. revert acc.
  induction Hall as [| id' x ids xs Hx _ IH]; intros acc.
  - cbn [app forOf]. unfold mbind at 1, SE_bind at 1.
    unfold mbind at 1, SE_bind at 1, liftC at 1. rewrite He, app_nil_r.
    reflexivity.
  - cbn [app forOf]. unfold mbind at 1, SE_bind at 1.
    unfold mbind at 1, SE_bind at 1, liftC at 1. rewrite Hx.
    unfold modify at 1. rewrite IH, <- app_assoc. reflexivity.
Qed.

End LookupFacts.

(** [getBlocksByIDs] answers with the encodings of the blocks found, in the
    order asked, when every id is found.  At the first id whose lookup
    fails it stops: a [NotFoundError] yields the blocks found before it, and
    the ids after it are never looked up; any other error is thrown. *)
Theorem getBlocksByIDs_prefix (env : Collaborators)
    (getBlockByID : string -> completion Error Block)
    (isNotFoundError : Error -> bool) (ids : list string) :
  (forall found,
     Forall2 (fun id b => getBlockByID id = Return b) ids found ->
     Actions.getBlocksByIDs getBlockByID isNotFoundError ids
     = Return (encode <$> found))
  /\ (forall pre id post found e,
        ids = pre ++ id :: post ->
        Forall2 (fun id b => getBlockByID id = Return b) pre found ->
        getBlockByID id = Throw e ->
        Actions.getBlocksByIDs getBlockByID isNotFoundError ids
        = if isNotFoundError e then Return (encode <$> found) else Throw e).
Proof.
  split.
  - intros found Hall. unfold Actions.getBlocksByIDs, tryCatch.
    rewrite (collectLoop_all getBlockByID ids found [] Hall). reflexivity.
  - intros pre id post found e -> Hall He.
    unfold Actions.getBlocksByIDs, tryCatch.
    rewrite (collectLoop_stops getBlockByID pre post id e found [] Hall He).
    unfold Actions.swallowNotFound. destruct (isNotFoundError e); reflexivity.
Qed.

(** Asking the sample chain for [b1], an unknown id and [b2] yields [b1]
    alone. *)
Lemma getBlocksByIDs_prefix_witness :
  Actions.getBlocksByIDs (H := Sample.collaborators)
    SampleActions.getBlockByID SampleActions.isNotFoundError
    ["b1"; "zz"; "b2"]
  = Return ["b1"].
Proof.
  apply (proj2 (getBlocksByIDs_prefix Sample.collaborators
                  SampleActions.getBlockByID SampleActions.isNotFoundError
                  ["b1"; "zz"; "b2"])
           ["b1"] "zz" ["b2"] [Sample.blockAt "b1" 1 []] SampleActions.notFound).
  - reflexivity.
  - repeat constructor.
  - reflexivity.
Defined.

(** [getTransactionsByIDs] behaves the same way on transactions: all bytes
    when every id is found, the bytes found before the first
    [NotFoundError], any other error thrown. *)
Theorem getTransactionsByIDs_prefix
    (getTransactionByID : string -> completion Error Transaction)
    (getBytes : Transaction -> string)
    (isNotFoundError : Error -> bool) (ids : list string) :
  (forall found,
     Forall2 (fun id t => getTransactionByID id = Return t) ids found ->
     Actions.getTransactionsByIDs getTransactionByID getBytes isNotFoundError ids
     = Return (getBytes <$> found))
  /\ (forall pre id post found e,
        ids = pre ++ id :: post ->
        Forall2 (fun id t => getTransactionByID id = Return t) pre found ->
        getTransactionByID id = Throw e ->
        Actions.getTransactionsByIDs getTransactionByID getBytes
          isNotFoundError ids
        = if isNotFoundError e then Return (getBytes <$> found) else Throw e).
Proof.
  split.
  - intros found Hall. unfold Actions.getTransactionsByIDs, tryCatch.
    rewrite (collectLoop_all getTransactionByID ids found [] Hall).
    reflexivity.
  - intros pre id post found e -> Hall He.
    unfold Actions.getTransactionsByIDs, tryCatch.
    rewrite (collectLoop_stops getTransactionByID pre post id e found []
               Hall He).
    unfold Actions.swallowNotFound. destruct (isNotFoundError e); reflexivity.
Qed.

(** A lookup that fails with something else than [NotFoundError] on the
    second id: the error is thrown, the first transaction is not returned. *)
Lemma getTransactionsByIDs_prefix_witness :
  Actions.getTransactionsByIDs
    (fun id => if bool_decide (id = "a") then Return (Sample.tx "a" "S" 5)
               else Throw (JsError "database closed"))
    tx_id SampleActions.isNotFoundError ["a"; "b"]
  = Throw (JsError "database closed").
Proof.
  apply (proj2 (getTransactionsByIDs_prefix
                  (fun id => if bool_decide (id = "a")
                             then Return (Sample.tx "a" "S" 5)
                             else Throw (JsError "database closed"))
                  tx_id SampleActions.isNotFoundError ["a"; "b"])
           ["a"] "b" [] [Sample.tx "a" "S" 5] (JsError "database closed")).
  - reflexivity.
  - repeat constructor.
  - reflexivity.
Defined.

(** ** The list of registered transaction schemas *)

Section SchemaListFacts.
Variable transactionAssets : BaseModule -> list Actions.CustomAsset.

Lemma schemaLoop_inner (m : BaseModule) (assets : list Actions.CustomAsset)
    (acc : list Actions.RegisteredSchema) :
  forOf assets
    (fun customAsset =>
       modify (fun registeredSchemas : list Actions.RegisteredSchema =>
         registeredSchemas
         ++ [{| Actions.moduleID := m_id m;
                Actions.assetID := Actions.asset_id customAsset;
                Actions.rs_schema := Actions.asset_schema customAsset |}])) acc
  = (acc ++ ((fun a => {| Actions.moduleID := m_id m;
                          Actions.assetID := Actions.asset_id a;
                          Actions.rs_schema := Actions.asset_schema a |})
             <$> assets),
     Return tt).
Proof.
  revert acc. induction assets as [| a rest IH]; intros acc.
  - cbn. rewrite app_nil_r. reflexivity.
  - cbn [forOf]. unfold mbind at 1, SE_bind at 1, modify at 1.
    rewrite IH, <- app_assoc. reflexivity.
Qed.

Lemma schemaLoop_outer (mods : list BaseModule)
    (acc : list Actions.RegisteredSchema) :
  forOf mods
    (fun customModule =>
       forOf (transactionAssets customModule)
         (fun customAsset =>
            modify (fun registeredSchemas : list Actions.RegisteredSchema =>
              registeredSchemas
              ++ [{| Actions.moduleID := m_id customModule;
                     Actions.assetID := Actions.asset_id customAsset;
                     Actions.rs_schema := Actions.asset_schema customAsset |}])))
    acc
  = (acc ++ (mods ≫=
       (fun m => (fun a => {| Actions.moduleID := m_id m;
                              Actions.assetID := Actions.asset_id a;
                              Actions.rs_schema := Actions.asset_schema a |})
                 <$> transactionAssets m)),
     Return tt).
Proof.
  revert acc. induction mods as [| m rest IH]; intros acc.
  - cbn. rewrite app_nil_r. reflexivity.
  - cbn [forOf]. unfold mbind at 1, SE_bind at 1. cbv beta.
    rewrite schemaLoop_inner. rewrite IH. cbn [mbind list_bind].
    rewrite <- app_assoc. reflexivity.
Qed.

(** The nested loops compute the concatenation, module by module, of the
    entries of each module's assets. *)
Lemma getRegisteredTransactionSchemas_flat (n : Node.Node) :
  Actions._getRegisteredTransactionSchemas transactionAssets n
  = Node._registeredModules n ≫=
      (fun m => (fun a => {| Actions.moduleID := m_id m;
                             Actions.assetID := Actions.asset_id a;
                             Actions.rs_schema := Actions.asset_schema a |})
                <$> transactionAssets m).
Proof.
  unfold Actions._getRegisteredTransactionSchemas.
  rewrite schemaLoop_outer. reflexivity.
Qed.

End SchemaListFacts.

Lemma NoDup_fmap_inj_on {A B} (f : A -> B) (l : list A) (x y : A) :
  NoDup (f <$> l) -> x ∈ l -> y ∈ l -> f x = f y -> x = y.
Proof.
  induction l as [| a rest IH]; intros Hnd Hx Hy Heq; [inversion Hx |].
  cbn [fmap list_fmap] in Hnd. apply NoDup_cons in Hnd as [Ha Hnd].
  apply elem_of_cons in Hx as [-> | Hx]; apply elem_of_cons in Hy as [-> | Hy].
  - reflexivity.
  - exfalso. apply Ha. rewrite Heq. apply list_elem_of_fmap_2. exact Hy.
  - exfalso. apply Ha. rewrite <- Heq. apply list_elem_of_fmap_2. exact Hx.
  - apply IH; assumption.
Qed.

(** [_getRegisteredTransactionSchemas] lists exactly the assets of the
    registered modules, each under the id of its module.  When the
    registered modules have distinct ids and the assets of each module have
    distinct ids, no two entries share the pair of module id and asset
    id. *)
Theorem getRegisteredTransactionSchemas_keys
    (transactionAssets : BaseModule -> list Actions.CustomAsset)
    (n : Node.Node) :
  let result := Actions._getRegisteredTransactionSchemas transactionAssets n in
  (forall s, s ∈ result <->
     exists m a, m ∈ Node._registeredModules n /\ a ∈ transactionAssets m
                 /\ s = {| Actions.moduleID := m_id m;
                           Actions.assetID := Actions.asset_id a;
                           Actions.rs_schema := Actions.asset_schema a |})
  /\ (NoDup (m_id <$> Node._registeredModules n) ->
      (forall m, m ∈ Node._registeredModules n ->
                 NoDup (Actions.asset_id <$> transactionAssets m)) ->
      NoDup ((fun s => (Actions.moduleID s, Actions.assetID s)) <$> result)).
Proof.
  intros result. subst result. rewrite getRegisteredTransactionSchemas_flat.
  set (entry := fun (m : BaseModule) (a : Actions.CustomAsset) =>
                  {| Actions.moduleID := m_id m;
                     Actions.assetID := Actions.asset_id a;
                     Actions.rs_schema := Actions.asset_schema a |}).
  assert (Hmem : forall s,
    s ∈ Node._registeredModules n ≫= (fun m => entry m <$> transactionAssets m)
    <-> exists m a, m ∈ Node._registeredModules n /\ a ∈ transactionAssets m
                    /\ s = entry m a).
  { intros s. rewrite list_elem_of_bind. split.
    - intros (m & Hs & Hm). apply list_elem_of_fmap in Hs as (a & -> & Ha).
      exists m, a. auto.
    - intros (m & a & Hm & Ha & ->). exists m. split; [| exact Hm].
      apply list_elem_of_fmap_2. exact Ha. }
  split; [exact Hmem |].
  intros Hids Hassets. apply NoDup_fmap_2_strong.
  - intros x y Hx Hy Hkey.
    apply Hmem in Hx as (m1 & a1 & Hm1 & Ha1 & ->).
    apply Hmem in Hy as (m2 & a2 & Hm2 & Ha2 & ->).
    cbn in Hkey. injection Hkey as Hm Ha.
    assert (m1 = m2) by (eapply NoDup_fmap_inj_on; eauto). subst m2.
    assert (a1 = a2)
      by (eapply (NoDup_fmap_inj_on Actions.asset_id); eauto).
    subst a2. reflexivity.
  - apply NoDup_bind.
    + intros m1 m2 s Hm1 Hm2 Hs1 Hs2.
      apply list_elem_of_fmap in Hs1 as (a1 & -> & _).
      apply list_elem_of_fmap in Hs2 as (a2 & Heq & _).
      eapply NoDup_fmap_inj_on; eauto. injection Heq as Hm _ _. exact Hm.
    + intros m Hm. apply NoDup_fmap_2_strong.
      * intros a1 a2 Ha1 Ha2 Heq. injection Heq as Ha _.
        eapply (NoDup_fmap_inj_on Actions.asset_id); eauto.
      * eapply NoDup_fmap_1. apply Hassets. exact Hm.
    + eapply NoDup_fmap_1. exact Hids.
Qed.

(** ** More on bootstrap *)

Section BootstrapInvariants.
Context `{Collaborators}.
Import Node.

(** One turn of the registration loop: either the id is taken and the turn
    throws without touching the node, or the module is appended and its
    schema, if any, written under its name. *)
Lemma registerCustomModule_step (gc : GenesisConfig)
    (C : GenesisConfig -> BaseModule) (n : Node) :
  (m_id (C gc) ∈ m_id <$> _registeredModules n
   /\ registerCustomModule gc C n = (n, Throw (CustomModuleExists (m_id (C gc)))))
  \/ ((m_id (C gc) ∉ m_id <$> _registeredModules n)
      /\ exists n',
           registerCustomModule gc C n = (n', Return tt)
           /\ _registeredModules n' = _registeredModules n ++ [C gc]
           /\ _registeredAccountSchemas n'
              = match accountSchema (C gc) with
                | Some s =>
                    <[m_name (C gc) := {| schema := s;
                                          fieldNumber := m_id (C gc) |}]>
                      (_registeredAccountSchemas n)
                | None => _registeredAccountSchemas n
                end
           /\ _log n' = _log n
           /\ _runtime n' = _runtime n
           /\ _options n' = _options n
           /\ _customModules n' = _customModules n
           /\ _genesisBlockJSON n' = _genesisBlockJSON n
           /\ _genesisBlock n' = _genesisBlock n).
Proof.
  destruct (List.find (fun rm => m_id rm =? m_id (C gc))
                      (_registeredModules n)) as [rm |] eqn:Hfind.
  - left. split; [exact (find_by_id_Some _ _ _ Hfind) |].
    unfold registerCustomModule, mbind, SE_bind, gets. rewrite Hfind.
    reflexivity.
  - right. split; [exact (find_by_id_None _ _ Hfind) |].
    exists (pushRegisteredModule (C gc)
              match accountSchema (C gc) with
              | Some s =>
                  setRegisteredAccountSchema (m_name (C gc))
                    {| schema := s; fieldNumber := m_id (C gc) |} n
              | None => n
              end).
    split.
    + unfold registerCustomModule, mbind, SE_bind, gets. rewrite Hfind.
      destruct (accountSchema (C gc)); reflexivity.
    + destruct (accountSchema (C gc)); repeat split; reflexivity.
Qed.

(** The node is well registered: ids are pairwise distinct, and every
    registered schema is the schema of a registered module of that name,
    numbered with that module's id. *)
Lemma registerCustomModule_keeps_registry (gc : GenesisConfig)
    (C : GenesisConfig -> BaseModule) (n : Node) :
  NoDup (m_id <$> _registeredModules n) ->
  (forall name a,
     _registeredAccountSchemas n !! name = Some a ->
     exists m, m ∈ _registeredModules n /\ m_name m = name
               /\ accountSchema m = Some (schema a)
               /\ fieldNumber a = m_id m) ->
  let n' := fst (registerCustomModule gc C n) in
  NoDup (m_id <$> _registeredModules n')
  /\ (forall name a,
        _registeredAccountSchemas n' !! name = Some a ->
        exists m, m ∈ _registeredModules n' /\ m_name m = name
                  /\ accountSchema m = Some (schema a)
                  /\ fieldNumber a = m_id m).
Proof.
  intros Hnd Hsound n'. subst n'.
  destruct (registerCustomModule_step gc C n)
    as [[_ ->] | (Hfresh & n' & -> & Hreg & Hsch & _)]; cbn [fst];
    [split; assumption |].
  split.
  - rewrite Hreg, fmap_app. apply NoDup_app. split; [exact Hnd |].
    split; [| apply NoDup_singleton].
    intros x Hx Hx'. apply list_elem_of_singleton in Hx'. subst x.
    exact (Hfresh Hx).
  - intros name a. rewrite Hreg, Hsch.
    destruct (accountSchema (C gc)) as [s |] eqn:Hs.
    + destruct (decide (m_name (C gc) = name)) as [<- | Hne].
      * rewrite lookup_insert_eq. intros [= <-].
        exists (C gc). split; [apply elem_of_app; right; left |]. auto.
      * rewrite lookup_insert_ne by exact Hne. intros Ha.
        destruct (Hsound name a Ha) as (m & Hm & Hrest).
        exists m. split; [apply elem_of_app; left; exact Hm | exact Hrest].
    + intros Ha. destruct (Hsound name a Ha) as (m & Hm & Hrest).
      exists m. split; [apply elem_of_app; left; exact Hm | exact Hrest].
Qed.

(** The whole loop: what it leaves alone, what it appends, and that it
    keeps the node well registered. *)
Lemma registerLoop_frame (gc : GenesisConfig)
    (customs : list (GenesisConfig -> BaseModule)) (n : Node) :
  exists n' res,
    forOf customs (registerCustomModule gc) n = (n', res)
    /\ _log n' = _log n
    /\ _customModules n' = _customModules n
    /\ _genesisBlock n' = _genesisBlock n
    /\ (res = Return tt ->
        _registeredModules n'
        = _registeredModules n ++ ((fun C => C gc) <$> customs))
    /\ (NoDup (m_id <$> _registeredModules n) ->
        (forall name a,
           _registeredAccountSchemas n !! name = Some a ->
           exists m, m ∈ _registeredModules n /\ m_name m = name
                     /\ accountSchema m = Some (schema a)
                     /\ fieldNumber a = m_id m) ->
        NoDup (m_id <$> _registeredModules n')
        /\ (forall name a,
              _registeredAccountSchemas n' !! name = Some a ->
              exists m, m ∈ _registeredModules n' /\ m_name m = name
                        /\ accountSchema m = Some (schema a)
                        /\ fieldNumber a = m_id m)).
Proof.
  revert n. induction customs as [| C rest IH]; intros n.
  - exists n, (Return tt). cbn. rewrite app_nil_r. repeat split; auto.
  - cbn [forOf fmap list_fmap]. unfold mbind at 1, SE_bind at 1.
    pose proof (registerCustomModule_keeps_registry gc C n) as Hkeep.
    destruct (registerCustomModule_step gc C n)
      as [[_ Hstep] | (_ & n1 & Hstep & Hreg & _ & Hlog & _ & _ & Hcm & _ & Hgb)];
      rewrite Hstep in Hkeep |- *; cbn [fst] in Hkeep.
    + exists n, (Throw (CustomModuleExists (m_id (C gc)))).
      split; [reflexivity |]. do 3 (split; [reflexivity |]).
      split; [discriminate | exact Hkeep].
    + destruct (IH n1) as (n' & res & Hrun & Hlog' & Hcm' & Hgb' & Happ & Hinv).
      exists n', res. split; [exact Hrun |].
      split; [congruence |]. split; [congruence |]. split; [congruence |].
      split.
      * intros Hres. rewrite (Happ Hres), Hreg, <- app_assoc. reflexivity.
      * intros Hnd Hsound. destruct (Hkeep Hnd Hsound) as [Hnd1 Hsound1].
        exact (Hinv Hnd1 Hsound1).
Qed.

End BootstrapInvariants.

Section BootstrapOutcomes.
Context `{Collaborators}.
Import Node.

(** Everything a bootstrap that returned tells about the node before and
    after. *)
Lemma bootstrap_Return_inv (n n' : Node) :
  bootstrap n = (n', Return tt) ->
  waitThreshold (forging (_options n)) < g_blockTime (genesisConfig (_options n))
  /\ _customModules n' = _customModules n
  /\ _options n' = _options n
  /\ _registeredModules n'
     = _registeredModules n
       ++ ((fun C => C (genesisConfig (_options n))) <$> _customModules n)
  /\ _log n' = _log n ++ [Log info "Node ready and launched"]
  /\ exists json g r,
       _genesisBlockJSON n = Some json
       /\ _genesisBlockJSON n' = Some json
       /\ readGenesisBlockJSON json (_registeredAccountSchemas n') = Return g
       /\ _genesisBlock n' = Some g
       /\ _runtime n' = Some r.
Proof.
  intros Hboot.
  destruct (_genesisBlockJSON n) as [json |] eqn:Hjson.
  2: { unfold bootstrap, tryCatch in Hboot.
       unfold mbind at 1, SE_bind at 1, gets in Hboot.
       rewrite Hjson in Hboot. discriminate Hboot. }
  destruct (registerLoop_spec (genesisConfig (_options n)) (_customModules n) n)
    as (n1 & res1 & Hloop & _ & Hopt & Hj1 & _).
  destruct (registerLoop_frame (genesisConfig (_options n)) (_customModules n) n)
    as (n1' & res1' & Hloop' & Hlog & Hcm & _ & Happ & _).
  rewrite Hloop in Hloop'. injection Hloop' as <- <-.
  rewrite (bootstrap_cases n n1 json res1 Hjson Hloop) in Hboot.
  destruct res1 as [[] | e]; [| discriminate Hboot].
  destruct (readGenesisBlockJSON json (_registeredAccountSchemas n1))
    as [g | e] eqn:Hread; [| discriminate Hboot].
  unfold checkWaitThreshold in Hboot.
  destruct (waitThreshold (forging (_options n))
            >=? g_blockTime (genesisConfig (_options n))) eqn:Hwt;
    [discriminate Hboot |].
  cbn [throwIf] in Hboot. unfold initAndLaunch in Hboot.
  destruct (launch (_registeredModules (setGenesisBlock g n1)) g
              (initModules (_options (setGenesisBlock g n1)) g
                 (_registeredAccountSchemas (setGenesisBlock g n1))))
    as [r [[] | e]]; [| discriminate Hboot].
  injection Hboot as <-. cbn.
  split; [rewrite Z.geb_leb in Hwt; apply Z.leb_gt in Hwt; exact Hwt |].
  split; [exact Hcm |]. split; [exact Hopt |].
  split; [exact (Happ eq_refl) |]. split; [rewrite Hlog; reflexivity |].
  exists json, g, r. rewrite Hj1, Hjson. auto.
Qed.

(** Where the registry of a bootstrapped node comes from: the registration
    loop, or the node itself when the genesis block is missing. *)
Lemma bootstrap_registry_source (n : Node) :
  exists n1,
    _registeredModules (fst (bootstrap n)) = _registeredModules n1
    /\ _registeredAccountSchemas (fst (bootstrap n))
       = _registeredAccountSchemas n1
    /\ (n1 = n
        \/ n1 = fst (forOf (_customModules n)
                       (registerCustomModule (genesisConfig (_options n))) n)).
Proof.
  destruct (_genesisBlockJSON n) as [json |] eqn:Hjson.
  - destruct (forOf (_customModules n)
                (registerCustomModule (genesisConfig (_options n))) n)
      as [n1 res1] eqn:Hloop.
    exists n1. rewrite (bootstrap_cases n n1 json res1 Hjson Hloop).
    split; [| split; [| right; reflexivity]];
      (destruct res1 as [[] | e]; [| reflexivity];
       destruct (readGenesisBlockJSON json (_registeredAccountSchemas n1))
         as [g | e]; [| reflexivity];
       destruct (checkWaitThreshold (_options n)) as [[] | e];
         [| reflexivity];
       unfold initAndLaunch;
       destruct (launch _ g _) as [r [[] | e]]; reflexivity).
  - exists n.
    assert (Hboot : bootstrap n
                    = (logNode (LogErr fatal MissingGenesisBlock
                                  "Failed to initialization node") n,
                       Throw MissingGenesisBlock)).
    { unfold bootstrap, tryCatch. unfold mbind at 1, SE_bind at 1, gets.
      rewrite Hjson. reflexivity. }
    rewrite Hboot.
    split; [reflexivity |]. split; [reflexivity | left; reflexivity].
Qed.

End BootstrapOutcomes.



(** Whatever bootstrap does to a new node, and however it ends, the
    registered modules have pairwise distinct ids, every registered account
    schema belongs to a registered module of that name and carries that
    module's id as [fieldNumber], and no two names share a [fieldNumber]. *)
Theorem bootstrap_registry_wellformed (env : Collaborators)
    (genesisBlockJSON : option string)
    (customModules : list (GenesisConfig -> BaseModule))
    (options : NodeOptions) :
  let n' := fst (Node.bootstrap
                   (Node.new genesisBlockJSON customModules options)) in
  NoDup (m_id <$> Node._registeredModules n')
  /\ (forall name a,
        Node._registeredAccountSchemas n' !! name = Some a ->
        exists m, m ∈ Node._registeredModules n' /\ m_name m = name
                  /\ accountSchema m = Some (schema a)
                  /\ fieldNumber a = m_id m)
  /\ (forall name1 name2 a1 a2,
        Node._registeredAccountSchemas n' !! name1 = Some a1 ->
        Node._registeredAccountSchemas n' !! name2 = Some a2 ->
        fieldNumber a1 = fieldNumber a2 -> name1 = name2).
Proof.
  intros n'. subst n'.
  set (n := Node.new genesisBlockJSON customModules options).
  assert (Hreg : NoDup (m_id <$> Node._registeredModules
                                   (fst (Node.bootstrap n)))
    /\ (forall name a,
          Node._registeredAccountSchemas (fst (Node.bootstrap n)) !! name
          = Some a ->
          exists m, m ∈ Node._registeredModules (fst (Node.bootstrap n))
                    /\ m_name m = name
                    /\ accountSchema m = Some (schema a)
                    /\ fieldNumber a = m_id m)).
  { destruct (bootstrap_registry_source n) as (n1 & -> & -> & [-> | ->]).
    - split; [constructor |]. intros name a Ha. cbn in Ha.
      rewrite lookup_empty in Ha. discriminate Ha.
    - destruct (registerLoop_frame (genesisConfig (Node._options n))
                  (Node._customModules n) n)
        as (n1 & res & -> & _ & _ & _ & _ & Hinv).
      cbn [fst]. apply Hinv; [constructor |].
      intros name a Ha. cbn in Ha. rewrite lookup_empty in Ha.
      discriminate Ha. }
  destruct Hreg as [Hnd Hsound]. split; [exact Hnd |].
  split; [exact Hsound |].
  intros name1 name2 a1 a2 H1 H2 Hfield.
  destruct (Hsound name1 a1 H1) as (m1 & Hm1 & <- & _ & Hid1).
  destruct (Hsound name2 a2 H2) as (m2 & Hm2 & <- & _ & Hid2).
  f_equal. eapply NoDup_fmap_inj_on; eauto. congruence.
Qed.

(** Bootstrap cannot be run twice on one node: after a bootstrap that
    returned, its first custom module is already registered, so a second
    bootstrap throws "already exists" for it. *)
Theorem bootstrap_not_reentrant (env : Collaborators) (n n' : Node.Node)
    (C : GenesisConfig -> BaseModule)
    (rest : list (GenesisConfig -> BaseModule)) :
  Node.bootstrap n = (n', Return tt) ->
  Node._customModules n = C :: rest ->
  snd (Node.bootstrap n')
  = Throw (CustomModuleExists (m_id (C (genesisConfig (Node._options n))))).
Proof.
  intros Hboot Hcustoms.
  destruct (bootstrap_Return_inv n n' Hboot)
    as (_ & Hcm & Hopt & Hreg & _ & json & g & r & _ & Hj & _).
  rewrite Hcustoms in Hreg, Hcm. cbn [fmap list_fmap] in Hreg.
  assert (Hloop :
    forOf (Node._customModules n')
          (Node.registerCustomModule (genesisConfig (Node._options n'))) n'
    = (n', Throw (CustomModuleExists
                    (m_id (C (genesisConfig (Node._options n))))))).
  { rewrite Hcm, Hopt. cbn [forOf]. unfold mbind at 1, SE_bind at 1.
    destruct (registerCustomModule_step (genesisConfig (Node._options n)) C n')
      as [[_ ->] | [Hfresh _]]; [reflexivity |].
    exfalso. apply Hfresh. rewrite Hreg, fmap_app.
    apply elem_of_app. right. left. }
  rewrite (bootstrap_cases n' n' json _ Hj Hloop). reflexivity.
Qed.

(** Bootstrapping the sample node twice. *)
Lemma bootstrap_not_reentrant_witness :
  let m := {| m_id := 2; m_name := "token"; accountSchema := Some "A" |} in
  let n := Node.new (Some "{}") [fun _ => m] (Sample.options 9 10) in
  snd (Node.bootstrap (H := Sample.collaborators)
         (fst (Node.bootstrap (H := Sample.collaborators) n)))
  = Throw (CustomModuleExists 2).
Proof.
  intros m n.
  apply (bootstrap_not_reentrant Sample.collaborators n
           (fst (Node.bootstrap (H := Sample.collaborators) n))
           (fun _ => m) []).
  - reflexivity.
  - reflexivity.
Defined.

(** ** More on the forging task and the event handlers *)

(** The forging task never throws, whatever [forge] does.  With no delegate
    enabled it writes one trace line and nothing else.  With a delegate
    enabled and the synchronizer idle, an error thrown by [forge] is
    swallowed: the task returns normally and the last thing it does is to
    log that error. *)
Theorem forgingTask_total (env : Collaborators) (r : Runtime) :
  snd (Node._forgingTask r) = Return tt
  /\ (Node.delegatesEnabled (forger r) = false ->
      Node._forgingTask r
      = (emit (Log trace "No delegates are enabled") r, Return tt))
  /\ (Node.delegatesEnabled (forger r) = true ->
      synchronizerIsActive r = false ->
      forall st err,
        forge (forger r) (chain r) (transactionPool r) = (st, Throw err) ->
        exists r0,
          Node._forgingTask r = (emit (LogErr error err "") r0, Return tt)).
Proof.
  unfold Node._forgingTask, tryCatch, mbind, SE_bind, gets, modify. cbn.
  split; [| split].
  - destruct (Node.delegatesEnabled (forger r)); cbn; [| reflexivity].
    destruct (synchronizerIsActive r); cbn; [reflexivity |].
    unfold Node.callForge.
    destruct (forge (forger r) (chain r) (transactionPool r))
      as [[[f c] p] [[] | err]]; reflexivity.
  - intros ->. reflexivity.
  - intros Henabled Hsync st err Hforge.
    rewrite Henabled. cbn. rewrite Hsync. cbn. unfold Node.callForge.
    rewrite Hforge. destruct st as [[f c] p]. eexists. reflexivity.
Qed.

(** The task at a node without unlocked delegates. *)
Lemma forgingTask_total_witness :
  Node._forgingTask (H := Sample.collaborators)
    (withForger {| keypairs := [] |} (Sample.runtime0 false true ∅))
  = (emit (Log trace "No delegates are enabled")
          (withForger {| keypairs := [] |} (Sample.runtime0 false true ∅)),
     Return tt).
Proof.
  apply (proj1 (proj2 (forgingTask_total Sample.collaborators
                         (withForger {| keypairs := [] |}
                                     (Sample.runtime0 false true ∅))))).
  reflexivity.
Defined.

Section NewBlockFacts.
Context `{Collaborators}.

(** The handler of a new block, in one piece. *)
Lemma onNewBlock_run (block : Block) (accounts : list Account) (r : Runtime) :
  Node.onNewBlock block accounts r
  = (let r1 := emit (Publish "app:block:new" (encode block)
                             (encodeAccount <$> accounts)) r in
     let r2 := withPool (foldl (fun p tx => TransactionPool.remove tx p)
                               (transactionPool r1) (payload block)) r1 in
     let r3 := if negb (synchronizerIsActive r2) then
                 emit (ApplyNodeInfo (height (header block))
                                     (b_id (header block))
                                     (maxHeightPrevoted (header block))
                                     (b_version (header block))) r2
               else r2 in
     emit (Log info "New block added to the chain") r3,
     Return tt).
Proof.
  unfold Node.onNewBlock. unfold mbind at 1, SE_bind at 1, modify at 1.
  unfold mbind at 1, SE_bind at 1.
  set (r1 := emit _ r).
  assert (Hloop :
    (if 0 <? Z.of_nat (length (payload block))
     then forOf (payload block)
            (fun transaction =>
               modify (fun r =>
                 withPool (TransactionPool.remove transaction
                             (transactionPool r)) r))
     else skip) r1
    = (withPool (foldl (fun p tx => TransactionPool.remove tx p)
                       (transactionPool r1) (payload block)) r1,
       Return tt)).
  { destruct (payload block) as [| tx rest] eqn:Hp.
    - destruct r1; reflexivity.
    - replace (0 <? Z.of_nat (length (tx :: rest))) with true
        by (symmetry; apply Z.ltb_lt; simpl; lia).
      apply removeLoop_spec. }
  rewrite Hloop. unfold mbind, SE_bind, gets, modify, skip, mret, SE_ret.
  cbn zeta. destruct (synchronizerIsActive _); reflexivity.
Qed.

End NewBlockFacts.

(** On a new block the handler publishes the block, cleans the pool, and
    hands the new tip to the network module only when the synchronizer is
    not active; it then logs the block.  Chain, forger and the two flags
    are left alone. *)
Theorem onNewBlock_effects (env : Collaborators) (block : Block)
    (accounts : list Account) (r : Runtime) :
  let r' := fst (Node.onNewBlock block accounts r) in
  effects r'
  = effects r
    ++ [Publish "app:block:new" (encode block) (encodeAccount <$> accounts)]
    ++ (if synchronizerIsActive r then []
        else [ApplyNodeInfo (height (header block)) (b_id (header block))
                            (maxHeightPrevoted (header block))
                            (b_version (header block))])
    ++ [Log info "New block added to the chain"]
  /\ chain r' = chain r
  /\ forger r' = forger r
  /\ synchronizerIsActive r' = synchronizerIsActive r
  /\ broadcastsActive r' = broadcastsActive r.
Proof.
  cbn zeta. rewrite onNewBlock_run. cbn zeta. cbn [fst].
  cbn [synchronizerIsActive withPool emit].
  destruct (synchronizerIsActive r) eqn:Hsync; cbn;
    rewrite <- ?app_assoc, ?Hsync; repeat split; reflexivity.
Qed.

(** The subscriber of network events never throws: an error of a handler
    ends up in a warning.  It knows two events; any other event, a posted
    transaction included, leaves the node exactly as it was. *)
Theorem onNetworkEvent_total (env : Collaborators) (event : string)
    (data : Payload) (peerId : string) (r : Runtime) :
  snd (Node.onNetworkEvent event data peerId r) = Return tt
  /\ (event <> "postTransactionsAnnouncement" -> event <> "postBlock" ->
      fst (Node.onNetworkEvent event data peerId r) = r)
  /\ (event = "postTransactionsAnnouncement" ->
      fst (Node.onNetworkEvent event data peerId r)
      = match handleEventPostTransactionsAnnouncement data peerId r with
        | (r', Return _) => r'
        | (r', Throw err) =>
            emit (LogErr warn err "Received invalid event message") r'
        end).
Proof.
  unfold Node.onNetworkEvent, tryCatch. split; [| split].
  - destruct (bool_decide (event = "postTransactionsAnnouncement")).
    + destruct (handleEventPostTransactionsAnnouncement data peerId r)
        as [r' [[] | err]]; reflexivity.
    + destruct (bool_decide (event = "postBlock")); [| reflexivity].
      destruct (Transport.handleEventPostBlock data peerId r)
        as [r' [[] | err]]; reflexivity.
  - intros Hne1 Hne2. rewrite !bool_decide_eq_false_2 by assumption.
    reflexivity.
  - intros ->. rewrite bool_decide_eq_true_2 by reflexivity.
    destruct (handleEventPostTransactionsAnnouncement data peerId r)
      as [r' [[] | err]]; reflexivity.
Qed.

(** A posted transaction arriving as a network event is ignored. *)
Lemma onNetworkEvent_total_witness :
  fst (Node.onNetworkEvent (H := Sample.collaborators) "postTransaction"
         {| p_blockId := None; p_block := None;
            p_transaction := Some (Sample.tx "a" "S" 5);
            p_transactionIds := None; p_ids := None |} "peer-id"
         (Sample.runtime0 false true ∅))
  = Sample.runtime0 false true ∅.
Proof.
  apply (proj1 (proj2 (onNetworkEvent_total Sample.collaborators
                         "postTransaction"
                         {| p_blockId := None; p_block := None;
                            p_transaction := Some (Sample.tx "a" "S" 5);
                            p_transactionIds := None; p_ids := None |} "peer-id"
                         (Sample.runtime0 false true ∅)))).
  - discriminate.
  - discriminate.
Defined.

(** ** More on [getValidators] *)

(** With a current slot [slot >= 0] and as many validators as
    [numberOfValidators], the addresses [getValidators] returns are the
    validator list rotated to start at index [slot mod numberOfValidators]:
    every validator appears exactly once, in round order. *)
Theorem getValidators_rotation (c : Chain) (now : Z) :
  let slot := getSlotNumber (slots c) now in
  let N := numberOfValidators c in
  0 <= slot -> 0 < N -> Z.of_nat (length (validators c)) = N ->
  exists infos,
    Node.getValidators c now = Return infos
    /\ Node.fi_address <$> infos
       = rotate (Z.to_nat (slot mod N)) (v_address <$> validators c)
    /\ Node.fi_address <$> infos ≡ₚ v_address <$> validators c.
Proof.
  intros slot N Hslot HN Hlen.
  assert (Hrem : Node.jsRem slot N = Some (slot mod N)).
  { unfold Node.jsRem. replace (N =? 0) with false
      by (symmetry; apply Z.eqb_neq; lia).
    rewrite Z.rem_mod_nonneg by lia. reflexivity. }
  pose proof (Z.mod_pos_bound slot N HN) as Hmod.
  destruct (getValidatorsLoop_spec (Z.to_nat N) (v_address <$> validators c)
              (blockTime (slots c)) (slot mod N) (getSlotTime (slots c) slot) [])
    as (infos & Hrun & Hlength & Hentries).
  { lia. }
  { rewrite length_fmap. lia. }
  assert (Hrot : Node.fi_address <$> infos
                 = rotate (Z.to_nat (slot mod N)) (v_address <$> validators c)).
  { apply list_eq. intros k. rewrite list_lookup_fmap.
    destruct (decide (k < Z.to_nat N)%nat) as [Hk | Hk].
    - destruct (Hentries k Hk) as (a & Ha & ->). cbn.
      rewrite lookup_rotate_r by (rewrite length_fmap; lia).
      unfold rotate_nat_add. rewrite Z2Nat.id by lia. symmetry. exact Ha.
    - rewrite (lookup_ge_None_2 infos k) by lia. cbn. symmetry.
      apply lookup_ge_None_2. rewrite length_rotate, length_fmap. lia. }
  exists infos. split; [| split].
  - unfold Node.getValidators. fold slot N. rewrite Hrem. exact Hrun.
  - exact Hrot.
  - rewrite Hrot. unfold rotate.
    rewrite Permutation_app_comm. rewrite take_drop. reflexivity.
Qed.

(** The rotation at the sample chain, at time 47 (slot 4 of 3 validators). *)
Lemma getValidators_rotation_witness :
  exists infos,
    Node.getValidators Sample.chain0 47 = Return infos
    /\ Node.fi_address <$> infos = rotate 1 ["v0"; "v1"; "v2"]
    /\ Node.fi_address <$> infos ≡ₚ ["v0"; "v1"; "v2"].
Proof.
  apply (getValidators_rotation Sample.chain0 47).
  - vm_compute. discriminate.
  - reflexivity.
  - reflexivity.
Defined.



(** ** The transaction interface adapter *)

Section AdapterFacts.
Import TransactionInterfaceAdapter.
Context {Num : Type} `{EqDecision Num} {V : Type}.

Lemma mapGet_mapSet_eq (k : Num) (v : V) (m : list (Num * V)) :
  mapGet k (mapSet k v m) = Some v.
Proof.
  induction m as [| [k' v'] rest IH]; cbn.
  - rewrite decide_True by reflexivity. reflexivity.
  - destruct (decide (k' = k)) as [-> | Hne]; cbn.
    + rewrite decide_True by reflexivity. reflexivity.
    + rewrite decide_False by exact Hne. exact IH.
Qed.

Lemma mapGet_mapSet_ne (k k0 : Num) (v : V) (m : list (Num * V)) :
  k <> k0 -> mapGet k0 (mapSet k v m) = mapGet k0 m.
Proof.
  intros Hne. induction m as [| [k' v'] rest IH]; cbn.
  - rewrite decide_False by exact Hne. reflexivity.
  - destruct (decide (k' = k)) as [-> | Hne']; cbn.
    + rewrite !decide_False by exact Hne. reflexivity.
    + destruct (decide (k' = k0)); [reflexivity | exact IH].
Qed.

Variable Number : string -> Num.

(** The [forEach] of the constructor, over any list of names: names that
    convert to another number leave the entry of a number alone, and the
    last name that converts to it decides. *)
Lemma forEach_other (object : list (string * V)) (names : list string)
    (k : Num) (m : list (Num * V)) :
  (forall name, name ∈ names -> Number name <> k) ->
  mapGet k
    (foldl (fun m name =>
              match property name object with
              | Some C => mapSet (Number name) C m
              | None => m
              end) m names)
  = mapGet k m.
Proof.
  revert m. induction names as [| name rest IH]; intros m Hne; [reflexivity |].
  cbn [foldl]. rewrite IH by (intros name' Hin; apply Hne; right; exact Hin).
  destruct (property name object); [| reflexivity].
  apply mapGet_mapSet_ne. apply Hne. left.
Qed.

Lemma forEach_last (object : list (string * V)) (pre post : list string)
    (name : string) (C : V) (m : list (Num * V)) :
  property name object = Some C ->
  (forall name', name' ∈ post -> Number name' <> Number name) ->
  mapGet (Number name)
    (foldl (fun m name =>
              match property name object with
              | Some C => mapSet (Number name) C m
              | None => m
              end) m (pre ++ name :: post))
  = Some C.
Proof.
  intros Hprop Hpost. rewrite foldl_app. cbn [foldl].
  rewrite forEach_other by exact Hpost. rewrite Hprop.
  apply mapGet_mapSet_eq.
Qed.

Lemma property_unique (before after : list (string * V)) (name : string)
    (C : V) :
  name ∉ fst <$> before ->
  property name (before ++ (name, C) :: after) = Some C.
Proof.
  induction before as [| [name' v] rest IH]; intros Hfresh; cbn.
  - rewrite decide_True by reflexivity. reflexivity.
  - rewrite decide_False.
    + apply IH. intros Hin. apply Hfresh. right. exact Hin.
    + intros ->. apply Hfresh. left.
Qed.

End AdapterFacts.

(** [fromJSON] throws "Transaction type not found." when no registered
    property name converts to the type of the transaction.  Otherwise it
    constructs the transaction with the class registered under the last
    property name that converts to that type: of two names for one number,
    the later one wins. *)
Theorem fromJSON_dispatch {Num : Type} `{EqDecision Num} {RawTx Tx : Type}
    (Number : string -> Num) (type : RawTx -> Num)
    (registeredTransactions : list (string * (RawTx -> completion Error Tx)))
    (rawTx : RawTx) :
  ((forall name, name ∈ fst <$> registeredTransactions ->
                 Number name <> type rawTx) ->
   TransactionInterfaceAdapter.fromJSON type
     (TransactionInterfaceAdapter.new Number registeredTransactions) rawTx
   = Throw (JsError "Transaction type not found."))
  /\ (forall before after name TransactionClass,
        registeredTransactions = before ++ (name, TransactionClass) :: after ->
        name ∉ fst <$> before ->
        Number name = type rawTx ->
        (forall name', name' ∈ fst <$> after -> Number name' <> type rawTx) ->
        TransactionInterfaceAdapter.fromJSON type
          (TransactionInterfaceAdapter.new Number registeredTransactions) rawTx
        = TransactionClass rawTx).
Proof.
  unfold TransactionInterfaceAdapter.fromJSON, TransactionInterfaceAdapter.new.
  split.
  - intros Hnone. rewrite forEach_other by exact Hnone. reflexivity.
  - intros before after name C -> Hfresh Hname Hafter.
    rewrite fmap_app. cbn [fmap list_fmap fst]. rewrite <- Hname.
    rewrite (forEach_last Number _ _ _ _ C); [reflexivity | |].
    + apply property_unique. exact Hfresh.
    + intros name' Hin. rewrite Hname. apply Hafter. exact Hin.
Qed.

(** Two property names for type 8: the class registered under "08" is the
    one [fromJSON] uses. *)
Lemma fromJSON_dispatch_witness :
  TransactionInterfaceAdapter.fromJSON (fun rawTx : Z * string => Some (fst rawTx))
    (TransactionInterfaceAdapter.new SampleActions.toNumber
       [("8", SampleActions.classOf "first");
        ("08", SampleActions.classOf "second");
        ("12", SampleActions.classOf "multisignature")])
    (8, "{}")
  = Return ("second", 8).
Proof.
  apply (proj2 (fromJSON_dispatch SampleActions.toNumber
                  (fun rawTx : Z * string => Some (fst rawTx))
                  [("8", SampleActions.classOf "first");
                   ("08", SampleActions.classOf "second");
                   ("12", SampleActions.classOf "multisignature")]
                  (8, "{}"))
           [("8", SampleActions.classOf "first")]
           [("12", SampleActions.classOf "multisignature")]
           "08" (SampleActions.classOf "second")).
  - reflexivity.
  - intros Hin. apply list_elem_of_singleton in Hin. discriminate Hin.
  - reflexivity.
  - intros name' Hin. apply list_elem_of_singleton in Hin. subst name'.
    discriminate.
Defined.

(** ** More on [registerMultisignature] *)

Section RegisterMultisignatureMore.
Import RegisterMultisignature.

Lemma number_out_of_range n lo hi :
  (forall z, ~ (isInteger n z /\ lo <= z <= hi)) ->
  negb (isValidInteger n) || num_lt n (ofZ lo) || num_gt n (ofZ hi) = true.
Proof.
  intros Hnone.
  destruct (negb (isValidInteger n) || num_lt n (ofZ lo) || num_gt n (ofZ hi))
    eqn:Hc; [reflexivity |].
  apply number_in_range_inv in Hc as (z & Hz). exfalso. exact (Hnone z Hz).
Qed.

Lemma number_in_range n z lo hi :
  isInteger n z -> lo <= z <= hi ->
  negb (isValidInteger n) || num_lt n (ofZ lo) || num_gt n (ofZ hi) = false.
Proof.
  intros Hz Hr. rewrite (num_lt_integer _ z _ Hz), (num_gt_integer _ z _ Hz).
  assert (Hint : isValidInteger n = true).
  { destruct n as [q | | |]; try contradiction.
    apply isValidInteger_Finite. exists z. exact Hz. }
  rewrite Hint. cbn. apply orb_false_iff. split; apply Z.ltb_ge; lia.
Qed.

End RegisterMultisignatureMore.

Section RegisterMultisignatureExtras.
Import RegisterMultisignature.
Variables MAXK MAXS MINK MINS : Z.
Variables isValidNonce isValidFee : string -> bool.
Variable validateNetworkIdentifier : string -> completion Error unit.
Variable BaseFields : Type.
Variable createBaseTransaction : RegisterMultisignatureInputs -> BaseFields.
Variable signAll :
  string -> string -> list string -> MultisignatureAsset ->
  completion Error (list string).

(** The checks run in the order of the source, and the first one that fails
    decides the error: an invalid nonce is reported before anything else,
    then an invalid fee, then a [numberOfSignatures] that is not an integer
    within its bounds (a fraction, [NaN] or an infinity included). *)
Theorem registerMultisignature_first_errors
    (inputs : RegisterMultisignatureInputs) :
  let run :=
    registerMultisignature MAXK MAXS MINK MINS isValidNonce isValidFee
      validateNetworkIdentifier BaseFields createBaseTransaction signAll
      inputs in
  (isValidNonce (nonce inputs) = false -> run = Throw ErrNonce)
  /\ (isValidNonce (nonce inputs) = true ->
      isValidFee (fee inputs) = false -> run = Throw ErrFee)
  /\ (isValidNonce (nonce inputs) = true ->
      isValidFee (fee inputs) = true ->
      (forall z, ~ (isInteger (numberOfSignatures inputs) z
                    /\ MINS <= z <= MAXS)) ->
      run = Throw ErrNumberOfSignatures).
Proof.
  intros run. subst run. unfold registerMultisignature, validateInputs.
  cbn [mandatoryPublicKeys optionalPublicKeys v_numberOfSignatures
       v_networkIdentifier v_fee v_nonce].
  split; [| split].
  - intros ->. reflexivity.
  - intros -> ->. reflexivity.
  - intros -> -> Hnone. rewrite (number_out_of_range _ _ _ Hnone). reflexivity.
Qed.

(** Without any key the function never gets to the check on the number of
    keys: with an accepted nonce and fee and a lower bound of at least one
    signature, it fails on [numberOfSignatures], either as out of range or as
    bigger than the number of keys. *)
Theorem registerMultisignature_no_keys
    (inputs : RegisterMultisignatureInputs) :
  mandatoryKeys inputs = [] -> optionalKeys inputs = [] ->
  isValidNonce (nonce inputs) = true -> isValidFee (fee inputs) = true ->
  1 <= MINS ->
  let run :=
    registerMultisignature MAXK MAXS MINK MINS isValidNonce isValidFee
      validateNetworkIdentifier BaseFields createBaseTransaction signAll
      inputs in
  run = Throw ErrNumberOfSignatures \/ run = Throw ErrSignaturesExceedKeys.
Proof.
  intros Hm Ho Hnonce Hfee Hmin run. subst run.
  unfold registerMultisignature, validateInputs.
  cbn [mandatoryPublicKeys optionalPublicKeys v_numberOfSignatures
       v_networkIdentifier v_fee v_nonce].
  rewrite Hnonce, Hfee, Hm, Ho. cbn [negb throwIf mbind completion_bind].
  destruct (negb (isValidInteger (numberOfSignatures inputs))
            || num_lt (numberOfSignatures inputs) (ofZ MINS)
            || num_gt (numberOfSignatures inputs) (ofZ MAXS)) eqn:Hc.
  - left. reflexivity.
  - right. apply number_in_range_inv in Hc as (z & Hz & Hr).
    unfold lengthN. cbn [length Z.of_nat Z.add].
    rewrite (num_gt_integer_l _ z _ Hz), (num_gt_integer _ z _ Hz).
    replace (z <? Z.of_nat 0) with false by (symmetry; apply Z.ltb_ge; lia).
    replace (Z.of_nat 0 + Z.of_nat 0 <? z) with true
      by (symmetry; apply Z.ltb_lt; lia).
    reflexivity.
Qed.

(** A key listed as mandatory and as optional is reported with all the
    optional keys that are also mandatory, once the checks on the numbers
    have passed, and before any repetition inside one list is looked at. *)
Theorem registerMultisignature_repeated_between
    (inputs : RegisterMultisignatureInputs) (z : Z) (k : string) :
  let m := mandatoryKeys inputs in
  let o := optionalKeys inputs in
  isValidNonce (nonce inputs) = true -> isValidFee (fee inputs) = true ->
  isInteger (numberOfSignatures inputs) z ->
  MINS <= z <= MAXS ->
  Z.of_nat (length m) <= z <= Z.of_nat (length m) + Z.of_nat (length o) ->
  MINK <= Z.of_nat (length m) + Z.of_nat (length o) <= MAXK ->
  k ∈ m -> k ∈ o ->
  registerMultisignature MAXK MAXS MINK MINS isValidNonce isValidFee
    validateNetworkIdentifier BaseFields createBaseTransaction signAll inputs
  = Throw (ErrRepeatedBetween (findRepeatedKeys o m))
  /\ k ∈ findRepeatedKeys o m
  /\ (forall k', k' ∈ findRepeatedKeys o m <-> k' ∈ o /\ k' ∈ m).
Proof.
  intros m o Hnonce Hfee Hz Hr Hzk Hkeys Hkm Hko.
  assert (Hmem : forall k', k' ∈ findRepeatedKeys o m <-> k' ∈ o /\ k' ∈ m).
  { intros k'. unfold findRepeatedKeys.
    rewrite !list_elem_of_In, filter_In, bool_decide_eq_true,
      <- !list_elem_of_In. tauto. }
  split; [| split; [apply Hmem; auto | exact Hmem]].
  unfold registerMultisignature, validateInputs.
  cbn [mandatoryPublicKeys optionalPublicKeys v_numberOfSignatures
       v_networkIdentifier v_fee v_nonce].
  fold m o. rewrite Hnonce, Hfee, (number_in_range _ z _ _ Hz Hr).
  unfold lengthN.
  rewrite (num_gt_integer_l _ z _ Hz), (num_gt_integer _ z _ Hz).
  replace (z <? Z.of_nat (length m)) with false
    by (symmetry; apply Z.ltb_ge; lia).
  replace (Z.of_nat (length m) + Z.of_nat (length o) <? z) with false
    by (symmetry; apply Z.ltb_ge; lia).
  replace (Z.of_nat (length m) + Z.of_nat (length o) >? MAXK) with false
    by (symmetry; rewrite Z.gtb_ltb; apply Z.ltb_ge; lia).
  replace (Z.of_nat (length m) + Z.of_nat (length o) <? MINK) with false
    by (symmetry; apply Z.ltb_ge; lia).
  cbn [negb orb throwIf mbind completion_bind].
  destruct (0 <? Z.of_nat (length (findRepeatedKeys o m))) eqn:Hrep;
    [reflexivity |].
  exfalso. exact (proj1 (findRepeatedKeys_check o m) Hrep k Hkm Hko).
Qed.

End RegisterMultisignatureExtras.

Section RegisterMultisignatureWitnesses.
Import RegisterMultisignature.

(** A fee that is not a number string is reported when the nonce is fine. *)
Lemma registerMultisignature_first_errors_witness :
  registerMultisignature 64 64 1 1 isNumberString isNumberString
    (fun _ => Return tt) unit (fun _ => tt) (fun _ _ _ _ => Return [])
    {| senderPassphrase := None; passphrases := None;
       mandatoryKeys := ["k1"; "k1"]; optionalKeys := [];
       numberOfSignatures := NaN; networkIdentifier := "net";
       nonce := "5"; fee := "ten" |}
  = Throw ErrFee.
Proof.
  apply (proj1 (proj2 (registerMultisignature_first_errors 64 64 1 1
                         isNumberString isNumberString (fun _ => Return tt)
                         unit (fun _ => tt) (fun _ _ _ _ => Return [])
                         {| senderPassphrase := None; passphrases := None;
                            mandatoryKeys := ["k1"; "k1"]; optionalKeys := [];
                            numberOfSignatures := NaN;
                            networkIdentifier := "net";
                            nonce := "5"; fee := "ten" |}))).
  - reflexivity.
  - reflexivity.
Defined.

(** No keys and one signature asked for. *)
Lemma registerMultisignature_no_keys_witness :
  registerMultisignature 64 64 1 1 isNumberString isNumberString
    (fun _ => Return tt) unit (fun _ => tt) (fun _ _ _ _ => Return [])
    {| senderPassphrase := None; passphrases := None;
       mandatoryKeys := []; optionalKeys := [];
       numberOfSignatures := ofZ 1; networkIdentifier := "net";
       nonce := "5"; fee := "10" |}
  = Throw ErrNumberOfSignatures
  \/ registerMultisignature 64 64 1 1 isNumberString isNumberString
       (fun _ => Return tt) unit (fun _ => tt) (fun _ _ _ _ => Return [])
       {| senderPassphrase := None; passphrases := None;
          mandatoryKeys := []; optionalKeys := [];
          numberOfSignatures := ofZ 1; networkIdentifier := "net";
          nonce := "5"; fee := "10" |}
     = Throw ErrSignaturesExceedKeys.
Proof.
  apply (registerMultisignature_no_keys 64 64 1 1 isNumberString
           isNumberString (fun _ => Return tt) unit (fun _ => tt)
           (fun _ _ _ _ => Return [])
           {| senderPassphrase := None; passphrases := None;
              mandatoryKeys := []; optionalKeys := [];
              numberOfSignatures := ofZ 1; networkIdentifier := "net";
              nonce := "5"; fee := "10" |}).
  - reflexivity.
  - reflexivity.
  - reflexivity.
  - reflexivity.
  - lia.
Defined.

(** A key on both lists, next to a mandatory key listed twice: the key on
    both lists is what gets reported. *)
Lemma registerMultisignature_repeated_between_witness :
  registerMultisignature 64 64 1 1 isNumberString isNumberString
    (fun _ => Return tt) unit (fun _ => tt) (fun _ _ _ _ => Return [])
    {| senderPassphrase := None; passphrases := None;
       mandatoryKeys := ["k1"; "k1"]; optionalKeys := ["k2"; "k1"];
       numberOfSignatures := ofZ 2; networkIdentifier := "net";
       nonce := "5"; fee := "10" |}
  = Throw (ErrRepeatedBetween ["k1"]).
Proof.
  apply (registerMultisignature_repeated_between 64 64 1 1 isNumberString
           isNumberString (fun _ => Return tt) unit (fun _ => tt)
           (fun _ _ _ _ => Return [])
           {| senderPassphrase := None; passphrases := None;
              mandatoryKeys := ["k1"; "k1"]; optionalKeys := ["k2"; "k1"];
              numberOfSignatures := ofZ 2; networkIdentifier := "net";
              nonce := "5"; fee := "10" |} 2 "k1").
  - reflexivity.
  - reflexivity.
  - reflexivity.
  - lia.
  - simpl. lia.
  - simpl. lia.
  - left.
  - right. left.
Defined.

End RegisterMultisignatureWitnesses.

(** The schema list of a node with two registered modules, one of which has
    a transaction asset. *)
Lemma getRegisteredTransactionSchemas_keys_witness :
  let n :=
    Node.pushRegisteredModule
      {| m_id := 5; m_name := "dpos"; accountSchema := None |}
      (Node.pushRegisteredModule
         {| m_id := 2; m_name := "token"; accountSchema := Some "A" |}
         (Node.new (Some "{}") [] (Sample.options 9 10))) in
  NoDup ((fun s => (Actions.moduleID s, Actions.assetID s))
         <$> Actions._getRegisteredTransactionSchemas SampleActions.assetsOf n).
Proof.
  intros n.
  apply (proj2 (getRegisteredTransactionSchemas_keys SampleActions.assetsOf n)).
  - apply (bool_decide_unpack _). vm_compute. exact I.
  - intros m Hm. unfold SampleActions.assetsOf.
    destruct (m_id m =? 2); repeat constructor.
    intros Hin. inversion Hin.
Defined.
